(** * A shallow embedding of the RAG chat demo: [src/backend/main.py] and
    the helper [send_query] of [src/frontend/app.py].

    The backend is glue around two managed services (knowledge-base
    retrieval and model inference).  The model below keeps the glue as the
    code has it and makes the services explicit: a backend computation is a
    program of a small free monad whose effects are the calls to the
    services, the chunks an async generator yields and the sleeps it awaits.
    Running it against an oracle for the services produces the trace of
    effects and the outcome (a Python exception or a value). *)

From Stdlib Require Import String Ascii List ZArith Lia Bool.
Import ListNotations.
Open Scope string_scope.
Set Warnings "-register-all".

(* ------------------------------------------------------------------ *)
(** ** Python values *)

(** A Python float, identified by its [repr] (e.g. ["0.5"]).  The code only
    uses float literals, which it passes on or prints. *)
Inductive pyfloat : Type := PyFloat (repr : string).

(** Python values as they come out of [json.loads] and go into
    [json.dumps]: [None], booleans, ints, floats, strings, lists and dicts.
    A dict is an association list in insertion order. *)
Inductive json : Type :=
| JNull
| JBool (b : bool)
| JInt (z : Z)
| JFloat (f : pyfloat)
| JStr (s : string)
| JArr (l : list json)
| JObj (fields : list (string * json)).

(** The Python type name, as it appears in error messages. *)
Definition py_type_name (v : json) : string :=
  match v with
  | JNull => "NoneType"
  | JBool _ => "bool"
  | JInt _ => "int"
  | JFloat _ => "float"
  | JStr _ => "str"
  | JArr _ => "list"
  | JObj _ => "dict"
  end.

(** Truthiness ([bool(v)]). *)
Definition py_truthy (v : json) : bool :=
  match v with
  | JNull => false
  | JBool b => b
  | JInt z => negb (Z.eqb z 0)
  | JFloat (PyFloat r) => negb (String.eqb r "0.0" || String.eqb r "-0.0")
  | JStr s => negb (String.eqb s "")
  | JArr l => match l with [] => false | _ => true end
  | JObj l => match l with [] => false | _ => true end
  end.

(** Dict lookup on an association list. *)
Fixpoint assoc (k : string) (l : list (string * json)) : option json :=
  match l with
  | [] => None
  | (k', v) :: l' => if String.eqb k k' then Some v else assoc k l'
  end.

(* ------------------------------------------------------------------ *)
(** ** Strings as Python prints them *)

Fixpoint string_of_uint (d : Decimal.uint) : string :=
  match d with
  | Decimal.Nil => ""
  | Decimal.D0 d => String "0" (string_of_uint d)
  | Decimal.D1 d => String "1" (string_of_uint d)
  | Decimal.D2 d => String "2" (string_of_uint d)
  | Decimal.D3 d => String "3" (string_of_uint d)
  | Decimal.D4 d => String "4" (string_of_uint d)
  | Decimal.D5 d => String "5" (string_of_uint d)
  | Decimal.D6 d => String "6" (string_of_uint d)
  | Decimal.D7 d => String "7" (string_of_uint d)
  | Decimal.D8 d => String "8" (string_of_uint d)
  | Decimal.D9 d => String "9" (string_of_uint d)
  end.

(** [str(n)] for an int. *)
Definition py_str_int (z : Z) : string :=
  match Z.to_int z with
  | Decimal.Pos d => string_of_uint d
  | Decimal.Neg d => String "-" (string_of_uint d)
  end.

(** Characters are code points below 256 (a Latin-1 view of [str]). *)
Definition hex_digit (n : nat) : string :=
  String (ascii_of_nat (if Nat.ltb n 10 then 48 + n else 87 + n)) "".

(** [repr] of one character inside a string literal quoted with [q]. *)
Definition repr_char (q : ascii) (c : ascii) : string :=
  let n := nat_of_ascii c in
  if Ascii.eqb c "\" then "\\"
  else if Ascii.eqb c q then String "\" (String c "")
  else if Nat.eqb n 9 then "\t"
  else if Nat.eqb n 10 then "\n"
  else if Nat.eqb n 13 then "\r"
  else if Nat.ltb n 32 || Nat.eqb n 127 || (Nat.leb 128 n && Nat.leb n 160)
          || Nat.eqb n 173
  then "\x" ++ hex_digit (Nat.div n 16) ++ hex_digit (Nat.modulo n 16)
  else String c "".

Fixpoint has_char (c : ascii) (s : string) : bool :=
  match s with
  | EmptyString => false
  | String c' s' => Ascii.eqb c c' || has_char c s'
  end.

Fixpoint repr_body (q : ascii) (s : string) : string :=
  match s with
  | EmptyString => ""
  | String c s' => repr_char q c ++ repr_body q s'
  end.

Definition dquote : ascii := ascii_of_nat 34.

(** [repr(s)] for a string: single quotes unless the string contains a
    single quote and no double quote. *)
Definition py_repr_str (s : string) : string :=
  let q := if has_char "'" s && negb (has_char dquote s) then dquote else "'"%char in
  String q (repr_body q s ++ String q "").

(** [sep.join(l)]. *)
Fixpoint py_join (sep : string) (l : list string) : string :=
  match l with
  | [] => ""
  | [x] => x
  | x :: l' => x ++ sep ++ py_join sep l'
  end.

(** [repr(v)] and [str(v)]; they differ only on strings. *)
Fixpoint py_repr (v : json) : string :=
  match v with
  | JNull => "None"
  | JBool true => "True"
  | JBool false => "False"
  | JInt z => py_str_int z
  | JFloat (PyFloat r) => r
  | JStr s => py_repr_str s
  | JArr l => "[" ++ py_join ", " (map py_repr l) ++ "]"
  | JObj l =>
      "{" ++ py_join ", "
               (map (fun kv => py_repr_str (fst kv) ++ ": " ++ py_repr (snd kv)) l)
      ++ "}"
  end.

Definition py_str (v : json) : string :=
  match v with
  | JStr s => s
  | _ => py_repr v
  end.

(* ------------------------------------------------------------------ *)
(** ** Python exceptions *)

(** The exception classes the code raises or catches.  [RequestsJSONDecodeError]
    is [requests.exceptions.JSONDecodeError], raised by [Response.json()]
    since requests 2.27; [ServiceError] stands for the errors boto3 raises
    for a failed service call ([botocore.exceptions.ClientError] and the
    like). *)
Inductive exc_class : Type :=
| Exception_
| ValueError
| TypeError
| KeyError
| IndexError
| AttributeError
| OSError
| JSONDecodeError
| RequestException
| HTTPError
| ConnectionError
| Timeout
| InvalidJSONError
| RequestsJSONDecodeError
| ServiceError.

(** The classes an exception of each class is an instance of (its MRO,
    without [BaseException] and [object]). *)
Definition mro (c : exc_class) : list exc_class :=
  match c with
  | Exception_ => [Exception_]
  | ValueError => [ValueError; Exception_]
  | TypeError => [TypeError; Exception_]
  | KeyError => [KeyError; Exception_]
  | IndexError => [IndexError; Exception_]
  | AttributeError => [AttributeError; Exception_]
  | OSError => [OSError; Exception_]
  | JSONDecodeError => [JSONDecodeError; ValueError; Exception_]
  | RequestException => [RequestException; OSError; Exception_]
  | HTTPError => [HTTPError; RequestException; OSError; Exception_]
  | ConnectionError => [ConnectionError; RequestException; OSError; Exception_]
  | Timeout => [Timeout; RequestException; OSError; Exception_]
  | InvalidJSONError => [InvalidJSONError; RequestException; OSError; Exception_]
  | RequestsJSONDecodeError =>
      [RequestsJSONDecodeError; InvalidJSONError; RequestException; OSError;
       JSONDecodeError; ValueError; Exception_]
  | ServiceError => [ServiceError; Exception_]
  end.

Definition exc_class_eqb (c d : exc_class) : bool :=
  match c, d with
  | Exception_, Exception_ | ValueError, ValueError | TypeError, TypeError
  | KeyError, KeyError | IndexError, IndexError
  | AttributeError, AttributeError | OSError, OSError
  | JSONDecodeError, JSONDecodeError | RequestException, RequestException
  | HTTPError, HTTPError | ConnectionError, ConnectionError
  | Timeout, Timeout | InvalidJSONError, InvalidJSONError
  | RequestsJSONDecodeError, RequestsJSONDecodeError
  | ServiceError, ServiceError => true
  | _, _ => false
  end.

(** A raised exception: its class and [str(e)]. *)
Record exn : Type := Exn { exc_cls : exc_class; exc_str : string }.

(** [isinstance(e, c)]. *)
Definition isinstance (e : exn) (c : exc_class) : bool :=
  existsb (exc_class_eqb c) (mro (exc_cls e)).

(* ------------------------------------------------------------------ *)
(** ** Effects of the backend *)

(** A call to one of the two managed services.  [Retrieve req] is
    [kb_client.retrieve] called with the fields of [req] as keyword arguments; [InvokeModel model_id payload ct acc] is
    [bedrock_client.invoke_model(modelId=model_id, body=json.dumps(payload),
    contentType=ct, accept=acc)], the answer being the body read, decoded
    and parsed with [json.loads]. *)
Inductive svc_call : Type :=
| Retrieve (req : json)
| InvokeModel (model_id : json) (payload : json) (content_type accept : string).

(** The effects a backend computation performs, in the order it performs
    them: a service call, a chunk yielded by an async generator, and an
    [await asyncio.sleep(seconds)]. *)
Inductive event : Type :=
| ESvc (c : svc_call)
| EYield (chunk : string)
| ESleep (seconds : pyfloat).

(** Backend computations: return, raise, or perform an event and continue
    with its result: the service's answer or the exception the call raised
    ([None] for yield and sleep). *)
Inductive prog (A : Type) : Type :=
| Ret (a : A)
| Raise (e : exn)
| Perform (ev : event) (k : exn + json -> prog A).
Arguments Ret {A} a.
Arguments Raise {A} e.
Arguments Perform {A} ev k.

Fixpoint bind {A B} (p : prog A) (f : A -> prog B) : prog B :=
  match p with
  | Ret a => f a
  | Raise e => Raise e
  | Perform ev k => Perform ev (fun r => bind (k r) f)
  end.

Notation "x <- p ;; q" := (bind p (fun x => q))
  (at level 61, p at next level, right associativity).

(** [try: p except Exception as e: h(e)]. *)
Fixpoint try_except {A} (p : prog A) (h : exn -> prog A) : prog A :=
  match p with
  | Ret a => Ret a
  | Raise e => if isinstance e Exception_ then h e else Raise e
  | Perform ev k => Perform ev (fun r => try_except (k r) h)
  end.

Definition raise_or_return (r : exn + json) : prog json :=
  match r with inl e => Raise e | inr v => Ret v end.

Definition call (c : svc_call) : prog json := Perform (ESvc c) raise_or_return.
Definition yield_ (s : string) : prog unit := Perform (EYield s) (fun _ => Ret tt).
Definition sleep (d : pyfloat) : prog unit := Perform (ESleep d) (fun _ => Ret tt).

(** An oracle answers each service call with a value or an exception. *)
Definition oracle := svc_call -> exn + json.

(** Running a computation: its trace of events and its outcome. *)
Fixpoint run {A} (o : oracle) (p : prog A) : list event * (exn + A) :=
  match p with
  | Ret a => ([], inr a)
  | Raise e => ([], inl e)
  | Perform ev k =>
      let r := match ev with ESvc c => o c | _ => inr JNull end in
      let (t, x) := run o (k r) in (ev :: t, x)
  end.

Definition trace {A} (o : oracle) (p : prog A) : list event := fst (run o p).
Definition outcome {A} (o : oracle) (p : prog A) : exn + A := snd (run o p).

(* ------------------------------------------------------------------ *)
(** ** Python operations used by the code *)

(** Plain Python code that may raise: an exception or a value.  [lift]
    embeds it in a backend computation. *)
Definition res (A : Type) : Type := (exn + A)%type.

Definition rbind {A B} (x : res A) (f : A -> res B) : res B :=
  match x with inl e => inl e | inr a => f a end.

Notation "x <-? p ;; q" := (rbind p (fun x => q))
  (at level 61, p at next level, right associativity).

Definition lift {A} (x : res A) : prog A :=
  match x with inl e => Raise e | inr a => Ret a end.

Definition nl : string := String (ascii_of_nat 10) EmptyString.

(** [str.isspace] on one character (code points below 256). *)
Definition py_isspace (c : ascii) : bool :=
  let n := nat_of_ascii c in
  (Nat.leb 9 n && Nat.leb n 13) || (Nat.leb 28 n && Nat.leb n 32)
  || Nat.eqb n 133 || Nat.eqb n 160.

(** [s.split()] with no separator: runs of whitespace separate the words;
    leading and trailing whitespace give no empty word.  [cur] is the word
    being read. *)
Fixpoint split_go (s cur : string) : list string :=
  match s with
  | EmptyString => if String.eqb cur "" then [] else [cur]
  | String c s' =>
      if py_isspace c
      then if String.eqb cur "" then split_go s' "" else cur :: split_go s' ""
      else split_go s' (cur ++ String c "")
  end.

Definition py_split (s : string) : list string := split_go s "".

Fixpoint is_prefix (p s : string) : bool :=
  match p, s with
  | EmptyString, _ => true
  | String c p', String d s' => Ascii.eqb c d && is_prefix p' s'
  | String _ _, EmptyString => false
  end.

(** [p in s] for strings. *)
Fixpoint is_substring (p s : string) : bool :=
  is_prefix p s || match s with
                   | EmptyString => false
                   | String _ s' => is_substring p s'
                   end.

Fixpoint chars (s : string) : list json :=
  match s with
  | EmptyString => []
  | String c s' => JStr (String c "") :: chars s'
  end.

Definition raise_type_error {A} (msg : string) : res A := inl (Exn TypeError msg).

(** [d.get(k, default)]. *)
Definition py_get (d : json) (k : string) (default : json) : res json :=
  match d with
  | JObj l => inr (match assoc k l with Some v => v | None => default end)
  | _ => inl (Exn AttributeError
                  ("'" ++ py_type_name d ++ "' object has no attribute 'get'"))
  end.

(** [v[k]] for a string key [k]. *)
Definition py_getitem (v : json) (k : string) : res json :=
  match v with
  | JObj l => match assoc k l with
              | Some x => inr x
              | None => inl (Exn KeyError (py_repr_str k))
              end
  | JArr _ => raise_type_error "list indices must be integers or slices, not str"
  | JStr _ => raise_type_error "string indices must be integers, not 'str'"
  | _ => raise_type_error ("'" ++ py_type_name v ++ "' object is not subscriptable")
  end.

(** [v[0]]. *)
Definition py_getitem0 (v : json) : res json :=
  match v with
  | JArr (x :: _) => inr x
  | JArr [] => inl (Exn IndexError "list index out of range")
  | JStr (String c _) => inr (JStr (String c ""))
  | JStr EmptyString => inl (Exn IndexError "string index out of range")
  | JObj l => inl (Exn KeyError "0")
  | _ => raise_type_error ("'" ++ py_type_name v ++ "' object is not subscriptable")
  end.

(** [k in v] for a string [k]. *)
Definition py_contains (k : string) (v : json) : res bool :=
  match v with
  | JObj l => inr (match assoc k l with Some _ => true | None => false end)
  | JArr l => inr (existsb (fun x => match x with
                                     | JStr s => String.eqb s k
                                     | _ => false
                                     end) l)
  | JStr s => inr (is_substring k s)
  | _ => raise_type_error
           ("argument of type '" ++ py_type_name v ++ "' is not iterable")
  end.

(** [iter(v)], materialised. *)
Definition py_iter (v : json) : res (list json) :=
  match v with
  | JArr l => inr l
  | JObj l => inr (map (fun kv => JStr (fst kv)) l)
  | JStr s => inr (chars s)
  | _ => raise_type_error ("'" ++ py_type_name v ++ "' object is not iterable")
  end.

(** [answer.split()] on a value that should be a string. *)
Definition py_split_method (v : json) : res (list string) :=
  match v with
  | JStr s => inr (py_split s)
  | _ => inl (Exn AttributeError
                  ("'" ++ py_type_name v ++ "' object has no attribute 'split'"))
  end.

(** [seq[-1]] and [seq[:-1]]. *)
Definition py_last {A} (l : list A) : res A :=
  match rev l with
  | [] => inl (Exn IndexError "list index out of range")
  | x :: _ => inr x
  end.

Definition py_drop_last {A} (l : list A) : list A := removelast l.

Fixpoint map_res {A B} (f : A -> res B) (l : list A) : res (list B) :=
  match l with
  | [] => inr []
  | x :: l' => y <-? f x;; ys <-? map_res f l';; inr (y :: ys)
  end.

(* ------------------------------------------------------------------ *)
(** ** The backend ([src/backend/main.py]) *)

(** [class Message(BaseModel)]: pydantic has checked both fields are
    strings.  A [ChatRequest] is its list of messages. *)
Record message : Type := Message { role : string; content : string }.

(** A [StreamingResponse]: the async generator it iterates and its media
    type. *)
Record streaming_response : Type :=
  StreamingResponse { sr_body : prog unit; sr_media_type : string }.

Section Backend.

(** [os.getenv("MODEL_ID")] and [os.getenv("KNOWLEDGE_BASE_ID")]: a string,
    or [None] when unset. *)
Variable MODEL_ID KNOWLEDGE_BASE_ID : json.

(** The payload [generate_llm_answer] sends. *)
Definition llm_payload (prompt : string) (max_tokens : Z) (temperature : pyfloat) : json :=
  JObj [("anthropic_version", JStr "bedrock-2023-05-31");
        ("max_tokens", JInt max_tokens);
        ("temperature", JFloat temperature);
        ("messages", JArr [JObj [("role", JStr "user"); ("content", JStr prompt)]]);
        ("system", JStr "You are a helpful assistant.")].

(** The last three lines of [generate_llm_answer]: unwrapping the parsed
    response body. *)
Definition unwrap_llm_response (result_json : json) : res json :=
  c <-? py_get result_json "content" JNull;;
  if py_truthy c then
    c' <-? py_getitem result_json "content";;
    first <-? py_getitem0 c';;
    py_get first "text" (JStr "")
  else inr (JStr "No response from model.").

Definition generate_llm_answer (prompt : string) (max_tokens : Z)
    (temperature : pyfloat) : prog json :=
  result_json <- call (InvokeModel MODEL_ID (llm_payload prompt max_tokens temperature)
                         "application/json" "application/json");;
  lift (unwrap_llm_response result_json).

(** The request [retrieve_from_kb] sends. *)
Definition kb_request (query : string) (top_k : Z) : json :=
  JObj [("knowledgeBaseId", KNOWLEDGE_BASE_ID);
        ("retrievalQuery", JObj [("text", JStr query)]);
        ("retrievalConfiguration",
          JObj [("vectorSearchConfiguration", JObj [("numberOfResults", JInt top_k)])])].

(** The list comprehension over [enumerate(candidates)], from index [i]. *)
Fixpoint format_docs (i : Z) (candidates : list json) : res (list string) :=
  match candidates with
  | [] => inr []
  | doc :: rest =>
      has_content <-? py_contains "content" doc;;
      keep <-? (if has_content
                then c <-? py_getitem doc "content";; py_contains "text" c
                else inr false);;
      if keep then
        c <-? py_getitem doc "content";;
        t <-? py_getitem c "text";;
        docs <-? format_docs (i + 1) rest;;
        inr (("Document " ++ py_str_int (i + 1) ++ ": " ++ py_str t) :: docs)
      else format_docs (i + 1) rest
  end.

(** The lines of [retrieve_from_kb] after the call: unwrapping the
    service's response. *)
Definition unwrap_kb_response (response : json) : res string :=
  candidates <-? py_get response "retrievalResults" (JArr []);;
  items <-? py_iter candidates;;
  docs <-? format_docs 0 items;;
  inr (py_join (nl ++ nl) docs).

Definition retrieve_from_kb (query : string) (top_k : Z) : prog string :=
  response <- call (Retrieve (kb_request query top_k));;
  lift (unwrap_kb_response response).

(** The f-string of [generate_rag_answer]. *)
Definition rag_prompt (kb_context conversation_text user_query : string) : string :=
  "
### Knowledge Base:
" ++ kb_context ++ "

### Conversation History:
" ++ conversation_text ++ "

### User Query:
" ++ user_query ++ "

### Response Instructions:
1. Provide clear, well-structured answers using normal text formatting.
2. Use simple paragraphs separated by line breaks.
3. If listing items, use simple bullet points with dashes (-) or numbers.
4. Do NOT use markdown headers (# ## ###) or excessive bold formatting.
5. Keep the text readable with normal font weight.

### Response:
".

Definition format_history_entry (msg : json) : res string :=
  r <-? py_getitem msg "role";;
  c <-? py_getitem msg "content";;
  inr (py_str r ++ ": " ++ py_str c).

Definition generate_rag_answer (user_query : string) (conversation_history : list json)
    : prog json :=
  kb_context <- retrieve_from_kb user_query 3;;
  entries <- lift (map_res format_history_entry conversation_history);;
  let conversation_text := py_join nl entries in
  generate_llm_answer (rag_prompt kb_context conversation_text user_query)
    1024 (PyFloat "0.5").

(** The loop of [stream_generator] over the words. *)
Fixpoint stream_words (words : list string) : prog unit :=
  match words with
  | [] => Ret tt
  | word :: rest =>
      _ <- yield_ (word ++ " ");;
      _ <- sleep (PyFloat "0.05");;
      stream_words rest
  end.

Definition stream_generator (user_query : string) (conversation_history : list json)
    : prog unit :=
  answer <- generate_rag_answer user_query conversation_history;;
  words <- lift (py_split_method answer);;
  stream_words words.

(** [[{"role": msg.role, "content": msg.content} for msg in ...]]. *)
Definition history_of (msgs : list message) : list json :=
  map (fun msg => JObj [("role", JStr (role msg)); ("content", JStr (content msg))]) msgs.

(** The steps inside the [try] of [rag_query_endpoint], up to the answer. *)
Definition rag_query_answer (messages : list message) : prog json :=
  let conversation_history := history_of (py_drop_last messages) in
  user_message <- lift (py_last messages);;
  generate_rag_answer (content user_message) conversation_history.

Definition rag_query_endpoint (messages : list message) : prog json :=
  try_except
    (answer <- rag_query_answer messages;;
     Ret (JObj [("response", answer)]))
    (fun e => Ret (JObj [("error", JStr (exc_str e))])).

Definition rag_stream_endpoint (messages : list message) : prog streaming_response :=
  let conversation_history := history_of (py_drop_last messages) in
  user_message <- lift (py_last messages);;
  Ret (StreamingResponse (stream_generator (content user_message) conversation_history)
         "text/plain").

(** Serving [/rag/stream]: the endpoint runs; if it returns, the server
    iterates the response's generator.  The trace is everything performed,
    the outcome how it ended. *)
Definition serve_stream (o : oracle) (messages : list message)
    : list event * (exn + unit) :=
  match run o (rag_stream_endpoint messages) with
  | (t1, inl e) => (t1, inl e)
  | (t1, inr sr) => let (t2, x) := run o (sr_body sr) in (app t1 t2, x)
  end.

End Backend.

(** The chunks yielded in a trace, in order, and the text they deliver. *)
Fixpoint chunks (t : list event) : list string :=
  match t with
  | [] => []
  | EYield s :: t' => s :: chunks t'
  | _ :: t' => chunks t'
  end.

Definition delivered (t : list event) : string := String.concat "" (chunks t).

(* ------------------------------------------------------------------ *)
(** ** The frontend helper [send_query] ([src/frontend/app.py]) *)

(** The part of a [requests.Response] the helper uses. *)
Record http_response : Type :=
  HttpResponse { status_code : Z; reason : string; url : string; text : string }.

(** [Response.raise_for_status()] of requests. *)
Definition raise_for_status (r : http_response) : res unit :=
  let s := status_code r in
  let http_error_msg :=
    if (400 <=? s)%Z && (s <? 500)%Z then
      py_str_int s ++ " Client Error: " ++ reason r ++ " for url: " ++ url r
    else if (500 <=? s)%Z && (s <? 600)%Z then
      py_str_int s ++ " Server Error: " ++ reason r ++ " for url: " ++ url r
    else "" in
  if String.eqb http_error_msg "" then inr tt else inl (Exn HTTPError http_error_msg).

Section Frontend.

(** [os.getenv("BACKEND_URL", "http://backend:8000")]. *)
Variable BACKEND_URL : string.

(** [requests.post(url, json=payload, timeout=30)]: a response, or the
    exception requests raises (a [RequestException] for connection
    failures and timeouts). *)
Variable requests_post : string -> json -> res http_response.

(** [json.loads] on the response text: a value, or the [str] of the
    [json.JSONDecodeError] it raises. *)
Variable json_loads : string -> string + json.

Definition RAG_QUERY_ENDPOINT : string := BACKEND_URL ++ "/rag/query".

(** [Response.json()] (requests 2.27 and later): a decode failure is
    re-raised as [requests.exceptions.JSONDecodeError]. *)
Definition response_json (r : http_response) : res json :=
  match json_loads (text r) with
  | inl msg => inl (Exn RequestsJSONDecodeError msg)
  | inr v => inr v
  end.

Definition format_messages_for_api (messages : list json) : res json :=
  api_messages <-? map_res (fun msg =>
                              r <-? py_getitem msg "role";;
                              c <-? py_getitem msg "content";;
                              inr (JObj [("role", r); ("content", c)])) messages;;
  inr (JObj [("messages", JArr api_messages)]).

(** The body of the [try] of [send_query]. *)
Definition send_query_try (messages : list json) : res json :=
  payload <-? format_messages_for_api messages;;
  response <-? requests_post RAG_QUERY_ENDPOINT payload;;
  _ <-? raise_for_status response;;
  result <-? response_json response;;
  has_error <-? py_contains "error" result;;
  if has_error then
    e <-? py_getitem result "error";;
    inr (JStr ("Error: " ++ py_str e))
  else py_get result "response" (JStr "No response received").

(** [send_query] with its three handlers, tried in order. *)
Definition send_query (messages : list json) : res json :=
  match send_query_try messages with
  | inr v => inr v
  | inl e =>
      if isinstance e RequestException then inr (JStr ("Connection error: " ++ exc_str e))
      else if isinstance e JSONDecodeError then inr (JStr "Error: Invalid response format")
      else if isinstance e Exception_ then inr (JStr ("Unexpected error: " ++ exc_str e))
      else inl e
  end.

End Frontend.

(** [stream_query] ([src/frontend/app.py]) *)
Section FrontendStream.

Variable BACKEND_URL : string.

(** [requests.post(url, json=payload, stream=True, timeout=30)]: the
    exception it raises, or the response together with what
    [response.iter_content(chunk_size=1, decode_unicode=True)] produces on
    it: the chunks it yields (strings: the backend's [text/plain] stream
    carries its charset), then the exception it raises, if any. *)
Variable requests_post_stream :
  string -> json -> res (http_response * (list string * option exn)).

Definition RAG_STREAM_ENDPOINT : string := BACKEND_URL ++ "/rag/stream".

(** The two handlers of [stream_query]: what they yield, and the exception
    that escapes when neither applies. *)
Definition stream_query_handle (e : exn) : list string * option exn :=
  if isinstance e RequestException then (["Connection error: " ++ exc_str e], None)
  else if isinstance e Exception_ then (["Unexpected error: " ++ exc_str e], None)
  else ([], Some e).

Definition stream_query_handled (yielded : list string) (e : exn) : list string * option exn :=
  let (more, escaped) := stream_query_handle e in (app yielded more, escaped).

(** The generator [stream_query]: all the chunks it yields, and the
    exception that escapes it, if any. *)
Definition stream_query (messages : list json) : list string * option exn :=
  match format_messages_for_api messages with
  | inl e => stream_query_handled [] e
  | inr payload =>
      match requests_post_stream RAG_STREAM_ENDPOINT payload with
      | inl e => stream_query_handled [] e
      | inr (response, (body, failure)) =>
          match raise_for_status response with
          | inl e => stream_query_handled [] e
          | inr _ =>
              let yielded := filter (fun chunk => negb (String.eqb chunk "")) body in
              match failure with
              | None => (yielded, None)
              | Some e => stream_query_handled yielded e
              end
          end
      end
  end.

End FrontendStream.

(** The chat turn of the Streamlit script ([src/frontend/app.py]), over
    [st.session_state.messages]. *)

(** The Streamlit calls a chat turn makes between its two appends: entering
    [st.chat_message(name)], [st.markdown(body)], [st.empty()], entering and
    leaving [st.spinner(text)] (which draws and then clears its element),
    [message_placeholder.markdown(full_response + "\u258c")] (the argument is the
    text before the cursor character) and
    [message_placeholder.markdown(full_response)]. *)
Inductive ui_call : Type :=
| UiChatMessage (name : string)
| UiMarkdown (body : json)
| UiEmpty
| UiSpinner (text : string)
| UiSpinnerEnd
| UiPlaceholderCursor (full_response : string)
| UiPlaceholderMarkdown (full_response : string).

(** Streamlit's [RerunException] and [StopException]: raised by a Streamlit
    call of a run when the user has interacted in the meantime (a new prompt,
    a widget) or the session was stopped.  They derive from
    [BaseException], so no [except Exception] of the script catches them. *)
Inductive script_control : Type := RerunException | StopException.

(** How a chat turn ends early: an exception escaping [stream_query] or
    [send_query], or a script-control exception of a Streamlit call. *)
Inductive turn_exit : Type :=
| TurnException (e : exn)
| TurnStopped (s : script_control).

(** The Streamlit calls of a turn, numbered from [n]: the script-control
    exception raised by the first of them that raises one, if any.
    [st_control n c] is what the [n]-th Streamlit call of the turn, [c],
    raises. *)
Fixpoint ui_run (st_control : nat -> ui_call -> option script_control) (n : nat)
    (calls : list ui_call) : option script_control :=
  match calls with
  | [] => None
  | c :: calls' =>
      match st_control n c with
      | Some s => Some s
      | None => ui_run st_control (S n) calls'
      end
  end.

(** [message_placeholder.markdown(full_response + "\u258c")] after each
    [full_response += chunk]. *)
Fixpoint cursor_updates (full_response : string) (chunks : list string) : list ui_call :=
  match chunks with
  | [] => []
  | chunk :: chunks' =>
      UiPlaceholderCursor (full_response ++ chunk) :: cursor_updates (full_response ++ chunk) chunks'
  end.

Section FrontendChat.

Variable BACKEND_URL : string.

(** [{"role": role, "content": content}] as the script stores it. *)
Definition session_message (r : string) (c : json) : json :=
  JObj [("role", JStr r); ("content", c)].

(** One turn of the [if prompt := st.chat_input(...)] block, against the
    backend as [requests_post], [json_loads] and [requests_post_stream]
    answer, and the Streamlit calls as [st_control] answers.  The user
    message is appended first; then come the Streamlit calls, with the
    chunks of [stream_query] accumulated into [full_response] or the value
    of [send_query]; the assistant message is appended only when none of
    them raised.  The result is the session's messages afterwards and how
    the turn ended early, if it did ([time.sleep(0.01)] raises nothing and
    is left out). *)
Definition chat_turn (requests_post : string -> json -> res http_response)
    (json_loads : string -> string + json)
    (requests_post_stream : string -> json -> res (http_response * (list string * option exn)))
    (st_control : nat -> ui_call -> option script_control)
    (use_streaming : bool) (messages : list json) (prompt : string)
    : list json * option turn_exit :=
  let messages1 := app messages [session_message "user" (JStr prompt)] in
  let shown := [UiChatMessage "user"; UiMarkdown (JStr prompt); UiChatMessage "assistant"] in
  if use_streaming then
    let (chunks, escaped) := stream_query BACKEND_URL requests_post_stream messages1 in
    let full_response := String.concat "" chunks in
    let loop := app (app shown [UiEmpty; UiSpinner "Retrieving from knowledge base..."])
                    (app (cursor_updates "" chunks) [UiSpinnerEnd]) in
    match ui_run st_control 0 loop with
    | Some s => (messages1, Some (TurnStopped s))
    | None =>
        match escaped with
        | Some e => (messages1, Some (TurnException e))
        | None =>
            match st_control (length loop) (UiPlaceholderMarkdown full_response) with
            | Some s => (messages1, Some (TurnStopped s))
            | None =>
                (app messages1 [session_message "assistant" (JStr full_response)], None)
            end
        end
    end
  else
    let waiting := app shown
      [UiSpinner "Retrieving from knowledge base and generating response..."] in
    match ui_run st_control 0 waiting with
    | Some s => (messages1, Some (TurnStopped s))
    | None =>
        match send_query BACKEND_URL requests_post json_loads messages1 with
        | inl e =>
            match st_control (length waiting) UiSpinnerEnd with
            | Some s => (messages1, Some (TurnStopped s))
            | None => (messages1, Some (TurnException e))
            end
        | inr response =>
            match ui_run st_control (length waiting) [UiSpinnerEnd; UiMarkdown response] with
            | Some s => (messages1, Some (TurnStopped s))
            | None => (app messages1 [session_message "assistant" response], None)
            end
        end
    end.

(** The session's message lists the script can build: empty at the start,
    emptied by "Clear Chat History", extended by a chat turn on a non-empty
    prompt (an empty [st.chat_input] value is falsy), whatever the backend
    and the user's interactions during the turn, and whether or not the turn
    ended early. *)
Inductive session_reachable : list json -> Prop :=
| session_start : session_reachable []
| session_clear (ms : list json) : session_reachable ms -> session_reachable []
| session_turn (ms : list json) requests_post json_loads requests_post_stream st_control
    (use_streaming : bool) (prompt : string) (ms' : list json) (exit : option turn_exit) :
    session_reachable ms ->
    prompt <> "" ->
    chat_turn requests_post json_loads requests_post_stream st_control use_streaming ms prompt
      = (ms', exit) ->
    session_reachable ms'.

End FrontendChat.

(** [m["role"] == "user"]. *)
Definition is_user_message (m : json) : res bool :=
  r <-? py_getitem m "role";;
  inr (match r with JStr s => String.eqb s "user" | _ => false end).

(** The "Chat Stats" of the sidebar: total, user and assistant messages
    ([total_messages - user_messages]). *)
Definition chat_stats (messages : list json) : res (nat * nat * nat) :=
  flags <-? map_res is_user_message messages;;
  let total_messages := length messages in
  let user_messages := length (filter (fun b => b) flags) in
  inr (total_messages, user_messages, total_messages - user_messages).

(** pydantic's validation of a request body as [ChatRequest]: a dict whose
    ["messages"] is a list of dicts each with string ["role"] and
    ["content"] (other keys ignored); anything else is rejected (FastAPI
    answers 422). *)
Definition parse_message (v : json) : option message :=
  match v with
  | JObj fs =>
      match assoc "role" fs, assoc "content" fs with
      | Some (JStr r), Some (JStr c) => Some (Message r c)
      | _, _ => None
      end
  | _ => None
  end.

Fixpoint parse_messages (l : list json) : option (list message) :=
  match l with
  | [] => Some []
  | v :: l' =>
      match parse_message v, parse_messages l' with
      | Some m, Some ms => Some (m :: ms)
      | _, _ => None
      end
  end.

Definition parse_chat_request (body : json) : option (list message) :=
  match body with
  | JObj fs => match assoc "messages" fs with
               | Some (JArr l) => parse_messages l
               | _ => None
               end
  | _ => None
  end.

(** ** The embedding on small inputs *)

Example py_split_runs : py_split (" a" ++ nl ++ nl ++ "b  c ") = ["a"; "b"; "c"].
Proof. reflexivity. Qed.

Example py_split_blank : py_split (" " ++ nl ++ " ") = [].
Proof. reflexivity. Qed.

Example py_repr_dict :
  py_repr (JObj [("a", JStr "it's"); ("b", JArr [JInt (-12); JNull; JBool true])])
  = "{'a': " ++ String dquote "it's" ++ String dquote ", 'b': [-12, None, True]}".
Proof. reflexivity. Qed.

Example py_str_int_neg : py_str_int (-305) = "-305".
Proof. reflexivity. Qed.

(* ================================================================== *)
(** * Properties *)

(** ** Running computations *)

Lemma run_bind {A B} (o : oracle) (p : prog A) (f : A -> prog B) :
  run o (bind p f) =
  match run o p with
  | (t, inl e) => (t, inl e)
  | (t, inr a) => (app t (fst (run o (f a))), snd (run o (f a)))
  end.
Proof.
  induction p as [a | e | ev k IH]; simpl.
  - destruct (run o (f a)); reflexivity.
  - reflexivity.
  - rewrite IH. destruct (run o (k _)) as [t [e | a]]; reflexivity.
Qed.

Lemma run_lift {A} (o : oracle) (x : res A) : run o (lift x) = ([], x).
Proof. destruct x; reflexivity. Qed.

Lemma isinstance_Exception (e : exn) : isinstance e Exception_ = true.
Proof. destruct e as [[] s]; reflexivity. Qed.

Lemma run_try_except {A} (o : oracle) (p : prog A) (h : exn -> prog A) :
  run o (try_except p h) =
  match run o p with
  | (t, inl e) => (app t (fst (run o (h e))), snd (run o (h e)))
  | (t, inr a) => (t, inr a)
  end.
Proof.
  induction p as [a | e | ev k IH]; cbn -[isinstance].
  - reflexivity.
  - pose proof (isinstance_Exception e) as He; rewrite He.
    destruct (run o (h e)); reflexivity.
  - rewrite IH. destruct (run o (k _)) as [t [e | a]]; reflexivity.
Qed.

Lemma run_call (o : oracle) (c : svc_call) :
  run o (call c) = ([ESvc c], o c).
Proof. unfold call; simpl. destruct (o c); reflexivity. Qed.

Lemma run_call_lift {A} (o : oracle) (c : svc_call) (f : json -> res A) :
  run o (x <- call c;; lift (f x)) = ([ESvc c], rbind (o c) f).
Proof.
  unfold call; simpl. destruct (o c) as [e | v]; simpl; [reflexivity |].
  destruct (f v); reflexivity.
Qed.

Lemma run_retrieve_from_kb (K : json) (o : oracle) (q : string) (k : Z) :
  run o (retrieve_from_kb K q k) =
  ([ESvc (Retrieve (kb_request K q k))],
   rbind (o (Retrieve (kb_request K q k))) unwrap_kb_response).
Proof. apply run_call_lift. Qed.

Lemma run_generate_llm_answer (M : json) (o : oracle) (prompt : string) (mt : Z)
    (temp : pyfloat) :
  run o (generate_llm_answer M prompt mt temp) =
  ([ESvc (InvokeModel M (llm_payload prompt mt temp) "application/json" "application/json")],
   rbind (o (InvokeModel M (llm_payload prompt mt temp) "application/json" "application/json"))
     unwrap_llm_response).
Proof. apply run_call_lift. Qed.

(** A line of the conversation history. *)
Definition history_line (msg : message) : string := role msg ++ ": " ++ content msg.

Lemma map_res_history (msgs : list message) :
  map_res format_history_entry (history_of msgs) = inr (map history_line msgs).
Proof.
  induction msgs as [| m msgs IH]; [reflexivity |].
  simpl. rewrite IH. reflexivity.
Qed.

(** The service call the model is sent for a knowledge-base context, a
    history and a query. *)
Definition model_call (M : json) (kb : string) (msgs : list message) (q : string)
    : svc_call :=
  InvokeModel M (llm_payload (rag_prompt kb (py_join nl (map history_line msgs)) q)
                   1024 (PyFloat "0.5"))
    "application/json" "application/json".

Lemma run_generate_rag_answer (M K : json) (o : oracle) (q : string)
    (msgs : list message) :
  run o (generate_rag_answer M K q (history_of msgs)) =
  match rbind (o (Retrieve (kb_request K q 3))) unwrap_kb_response with
  | inl e => ([ESvc (Retrieve (kb_request K q 3))], inl e)
  | inr kb => ([ESvc (Retrieve (kb_request K q 3)); ESvc (model_call M kb msgs q)],
               rbind (o (model_call M kb msgs q)) unwrap_llm_response)
  end.
Proof.
  unfold generate_rag_answer. rewrite run_bind, run_retrieve_from_kb.
  destruct (rbind _ unwrap_kb_response) as [e | kb]; [reflexivity |].
  rewrite run_bind, map_res_history, run_lift. cbn -[generate_llm_answer].
  rewrite run_generate_llm_answer. reflexivity.
Qed.

(** Only service calls happen before the answer is known. *)
Definition is_svc (ev : event) : Prop := match ev with ESvc _ => True | _ => False end.

Lemma generate_rag_answer_only_calls (M K : json) (o : oracle) (q : string)
    (h : list json) :
  Forall is_svc (trace o (generate_rag_answer M K q h)).
Proof.
  unfold trace, generate_rag_answer. rewrite run_bind, run_retrieve_from_kb.
  destruct (rbind _ unwrap_kb_response) as [e | kb]; simpl; [repeat constructor |].
  rewrite run_bind, run_lift.
  destruct (map_res format_history_entry h) as [e | entries];
    cbn -[generate_llm_answer]; [repeat constructor |].
  rewrite run_generate_llm_answer. repeat constructor.
Qed.

(** ** Streaming *)

(** The events of the loop of [stream_generator] over [words]. *)
Definition word_events (words : list string) : list event :=
  flat_map (fun w => [EYield (w ++ " "); ESleep (PyFloat "0.05")]) words.

(** The events that follow the answer in [stream_generator]. *)
Definition answer_events (r : exn + json) : list event :=
  match r with
  | inr (JStr a) => word_events (py_split a)
  | _ => []
  end.

Lemma run_stream_words (o : oracle) (words : list string) :
  run o (stream_words words) = (word_events words, inr tt).
Proof.
  induction words as [| w words IH]; [reflexivity |].
  simpl. rewrite IH. reflexivity.
Qed.

Lemma run_stream_generator (M K : json) (o : oracle) (q : string) (h : list json) :
  run o (stream_generator M K q h) =
  match run o (generate_rag_answer M K q h) with
  | (t, inl e) => (t, inl e)
  | (t, inr answer) =>
      match py_split_method answer with
      | inl e => (t, inl e)
      | inr words => (app t (word_events words), inr tt)
      end
  end.
Proof.
  unfold stream_generator. rewrite run_bind.
  destruct (run o (generate_rag_answer M K q h)) as [t [e | answer]]; [reflexivity |].
  rewrite run_bind, run_lift.
  destruct (py_split_method answer) as [e | words]; simpl.
  - rewrite app_nil_r. reflexivity.
  - rewrite run_stream_words. reflexivity.
Qed.

Lemma chunks_app (t1 t2 : list event) : chunks (app t1 t2) = app (chunks t1) (chunks t2).
Proof.
  induction t1 as [| ev t1 IH]; [reflexivity |].
  destruct ev; simpl; rewrite IH; reflexivity.
Qed.

Lemma chunks_only_calls (t : list event) : Forall is_svc t -> chunks t = [].
Proof.
  induction 1 as [| ev t Hev _ IH]; [reflexivity |].
  destruct ev; simpl in *; tauto.
Qed.

Lemma chunks_word_events (words : list string) :
  chunks (word_events words) = map (fun w => w ++ " ") words.
Proof.
  induction words as [| w words IH]; [reflexivity |].
  simpl. rewrite IH. reflexivity.
Qed.

(** A word of [split()]: no whitespace character in it. *)
Fixpoint no_space (s : string) : bool :=
  match s with
  | EmptyString => true
  | String c s' => negb (py_isspace c) && no_space s'
  end.

Lemma no_space_app (a b : string) : no_space (a ++ b) = no_space a && no_space b.
Proof.
  induction a as [| c a IH]; [reflexivity |].
  simpl. rewrite IH. apply andb_assoc.
Qed.

Lemma split_go_words (s cur : string) :
  no_space cur = true ->
  Forall (fun w => w <> "" /\ no_space w = true) (split_go s cur).
Proof.
  revert cur. induction s as [| c s IH]; intros cur Hcur; simpl.
  - destruct (String.eqb_spec cur ""); constructor; auto.
  - destruct (py_isspace c) eqn:Hc.
    + destruct (String.eqb_spec cur ""); [apply IH; reflexivity |].
      constructor; [auto | apply IH; reflexivity].
    + apply IH. rewrite no_space_app, Hcur. simpl. rewrite Hc. reflexivity.
Qed.

Lemma py_split_words (s : string) :
  Forall (fun w => w <> "" /\ no_space w = true) (py_split s).
Proof. apply split_go_words. reflexivity. Qed.

Lemma word_events_sleep_after_yield (words : list string) (i : nat) (c : string) :
  nth_error (word_events words) i = Some (EYield c) ->
  nth_error (word_events words) (S i) = Some (ESleep (PyFloat "0.05")).
Proof.
  revert i. induction words as [| w words IH]; intros i H.
  - destruct i; discriminate.
  - destruct i as [| [| i]]; simpl in *.
    + reflexivity.
    + discriminate.
    + apply IH. exact H.
Qed.

Lemma word_events_after_sleep (words : list string) (i : nat) (c : string) :
  nth_error (word_events words) i = Some (EYield c) ->
  nth_error (word_events words) (S (S i)) = None \/
  exists c', nth_error (word_events words) (S (S i)) = Some (EYield c').
Proof.
  revert i. induction words as [| w words IH]; intros i H.
  - destruct i; discriminate.
  - destruct i as [| [| i]]; simpl in *.
    + destruct words as [| w' words]; [left; reflexivity | right; eexists; reflexivity].
    + discriminate.
    + apply IH. exact H.
Qed.

Lemma word_events_sleeps (words : list string) (d : pyfloat) :
  In (ESleep d) (word_events words) -> d = PyFloat "0.05".
Proof.
  induction words as [| w words IH]; simpl; [tauto |].
  intros [H | [H | H]]; [discriminate | injection H; auto | auto].
Qed.

(** ** The endpoints on a non-empty request *)

Lemma py_last_snoc {A} (l : list A) (x : A) : py_last (l ++ [x])%list = inr x.
Proof. unfold py_last. rewrite rev_app_distr. reflexivity. Qed.

Lemma py_drop_last_snoc {A} (l : list A) (x : A) : py_drop_last (l ++ [x])%list = l.
Proof. apply removelast_last. Qed.

Lemma rag_query_answer_snoc (M K : json) (ms : list message) (m : message) :
  rag_query_answer M K (ms ++ [m])%list = generate_rag_answer M K (content m) (history_of ms).
Proof.
  unfold rag_query_answer. rewrite py_drop_last_snoc, py_last_snoc. reflexivity.
Qed.

Lemma rag_stream_endpoint_snoc (M K : json) (ms : list message) (m : message) :
  rag_stream_endpoint M K (ms ++ [m])%list =
  Ret (StreamingResponse (stream_generator M K (content m) (history_of ms)) "text/plain").
Proof.
  unfold rag_stream_endpoint. rewrite py_drop_last_snoc, py_last_snoc. reflexivity.
Qed.

Lemma run_rag_query_endpoint (M K : json) (o : oracle) (ms : list message) :
  run o (rag_query_endpoint M K ms) =
    (trace o (rag_query_answer M K ms),
     match outcome o (rag_query_answer M K ms) with
     | inr answer => inr (JObj [("response", answer)])
     | inl e => inr (JObj [("error", JStr (exc_str e))])
     end).
Proof.
  unfold rag_query_endpoint, outcome, trace.
  rewrite run_try_except, run_bind.
  destruct (run o (rag_query_answer M K ms)) as [t [e | a]]; simpl;
    rewrite app_nil_r; reflexivity.
Qed.

Lemma serve_stream_snoc (M K : json) (o : oracle) (ms : list message) (m : message) :
  serve_stream M K o (ms ++ [m])%list = run o (stream_generator M K (content m) (history_of ms)).
Proof.
  unfold serve_stream. rewrite rag_stream_endpoint_snoc. cbn [run sr_body app].
  destruct (run o (stream_generator M K (content m) (history_of ms))). reflexivity.
Qed.

(** The prompt as the spec describes it: the knowledge-base context, the
    history as lines [role: content] joined by newlines, the user query and
    the fixed response instructions, in this order under their headings. *)
Definition response_instructions : string :=
  "### Response Instructions:
1. Provide clear, well-structured answers using normal text formatting.
2. Use simple paragraphs separated by line breaks.
3. If listing items, use simple bullet points with dashes (-) or numbers.
4. Do NOT use markdown headers (# ## ###) or excessive bold formatting.
5. Keep the text readable with normal font weight.

### Response:
".

Definition prompt_from_parts (kb : string) (history : list (string * string)) (q : string)
    : string :=
  String.concat ""
    [nl; "### Knowledge Base:"; nl; kb; nl; nl;
     "### Conversation History:"; nl;
     py_join nl (map (fun rc => fst rc ++ ": " ++ snd rc) history); nl; nl;
     "### User Query:"; nl; q; nl; nl;
     response_instructions].

Lemma rag_prompt_parts (kb : string) (ms : list message) (q : string) :
  rag_prompt kb (py_join nl (map history_line ms)) q =
  prompt_from_parts kb (map (fun x => (role x, content x)) ms) q.
Proof. unfold prompt_from_parts. rewrite map_map. reflexivity. Qed.

(** The two service calls the claim describes for history [ms], last
    message [m] and knowledge-base context [kb]. *)
Definition described_calls (M K : json) (kb : string) (ms : list message) (m : message)
    : list event :=
  [ESvc (Retrieve (kb_request K (content m) 3));
   ESvc (InvokeModel M
           (llm_payload (prompt_from_parts kb (map (fun x => (role x, content x)) ms) (content m))
              1024 (PyFloat "0.5"))
           "application/json" "application/json")].

(** ** Knowledge-base results *)

(** The [content.text] field of a retrieval result, if it has one. *)
Definition content_text (doc : json) : option json :=
  match doc with
  | JObj fs => match assoc "content" fs with
               | Some (JObj cs) => assoc "text" cs
               | _ => None
               end
  | _ => None
  end.

(** A retrieval result as the service returns it: a dict whose
    ["content"], when present, is a dict. *)
Definition result_shaped (doc : json) : bool :=
  match doc with
  | JObj fs => match assoc "content" fs with
               | None | Some (JObj _) => true
               | Some _ => false
               end
  | _ => false
  end.

(** The result list of a retrieval response: its ["retrievalResults"], no
    result when the key is absent. *)
Definition kb_response_docs (response : json) : option (list json) :=
  match response with
  | JObj fs => match assoc "retrievalResults" fs with
               | None => Some []
               | Some (JArr l) => Some l
               | Some _ => None
               end
  | _ => None
  end.

(** The entries as the spec describes them: the result at position [n - 1]
    of the service's list, if it has [content.text], gives
    ["Document n: text"]; the others are dropped; the order is kept. *)
Fixpoint kb_entries (n : Z) (docs : list json) : list string :=
  match docs with
  | [] => []
  | doc :: rest =>
      match content_text doc with
      | Some t => ("Document " ++ py_str_int n ++ ": " ++ py_str t) :: kb_entries (n + 1) rest
      | None => kb_entries (n + 1) rest
      end
  end.

Lemma format_docs_shaped (docs : list json) (i : Z) :
  forallb result_shaped docs = true -> format_docs i docs = inr (kb_entries (i + 1) docs).
Proof.
  revert i. induction docs as [| doc docs IH]; intros i Hs; [reflexivity |].
  simpl in Hs. apply andb_true_iff in Hs as [Hd Hs].
  destruct doc as [| | | | | | fs]; try discriminate. simpl in Hd.
  simpl. destruct (assoc "content" fs) as [c |] eqn:Hc.
  - destruct c as [| | | | | | cs]; try discriminate. simpl.
    destruct (assoc "text" cs) as [t |] eqn:Ht; simpl; rewrite IH by exact Hs; reflexivity.
  - simpl. rewrite IH by exact Hs. reflexivity.
Qed.

(** ** Unwrapping the model's response *)

Lemma unwrap_llm_response_cases (fs : list (string * json)) :
  ((assoc "content" fs = None \/ assoc "content" fs = Some JNull \/
    assoc "content" fs = Some (JArr [])) ->
   unwrap_llm_response (JObj fs) = inr (JStr "No response from model.")) /\
  (forall first rest, assoc "content" fs = Some (JArr (JObj first :: rest)) ->
   unwrap_llm_response (JObj fs) =
     inr (match assoc "text" first with Some t => t | None => JStr "" end)).
Proof.
  unfold unwrap_llm_response. simpl. split.
  - intros [H | [H | H]]; rewrite H; reflexivity.
  - intros first rest H. rewrite H. reflexivity.
Qed.

(* ------------------------------------------------------------------ *)
(** ** The claims *)

(** C2: [stream_generator] first computes the whole answer with one call of
    [generate_rag_answer] (whose trace holds service calls only, no chunk),
    then performs exactly the events of the loop over [answer.split()]:
    each chunk is a whitespace-separated word of that answer followed by one
    space, the words in order; no chunk is empty and the chunks depend on
    the answer string only. *)
Theorem stream_generator_streams_precomputed_answer (M K : json) (o : oracle)
    (q : string) (h : list json) :
  Forall is_svc (trace o (generate_rag_answer M K q h)) /\
  trace o (stream_generator M K q h) =
    app (trace o (generate_rag_answer M K q h))
        (answer_events (outcome o (generate_rag_answer M K q h))) /\
  (forall a, outcome o (generate_rag_answer M K q h) = inr (JStr a) ->
     chunks (trace o (stream_generator M K q h)) = map (fun w => w ++ " ") (py_split a)) /\
  Forall (fun c => exists w, c = w ++ " " /\ w <> "" /\ no_space w = true)
    (chunks (trace o (stream_generator M K q h))).
Proof.
  pose proof (generate_rag_answer_only_calls M K o q h) as Hcalls.
  unfold trace, outcome in *. rewrite run_stream_generator.
  destruct (run o (generate_rag_answer M K q h)) as [t [e | answer]]; simpl in *.
  - repeat split; [exact Hcalls | rewrite app_nil_r; reflexivity | discriminate |].
    rewrite (chunks_only_calls _ Hcalls). constructor.
  - destruct answer as [| b | z | f | a | l | fs]; simpl;
      try (repeat split; [exact Hcalls | rewrite app_nil_r; reflexivity | discriminate |
                          rewrite (chunks_only_calls _ Hcalls); constructor]).
    split; [exact Hcalls | split; [reflexivity | split]].
    + intros a' Ha. injection Ha as Ha. subst a'.
      rewrite chunks_app, (chunks_only_calls _ Hcalls), chunks_word_events. reflexivity.
    + rewrite chunks_app, (chunks_only_calls _ Hcalls), chunks_word_events. simpl.
      apply Forall_map. eapply Forall_impl; [| apply py_split_words].
      intros w [Hne Hns]. exists w. auto.
Qed.

(** C10: the delay is fixed: in the events of [stream_generator], every
    yielded chunk is immediately followed by [asyncio.sleep(0.05)], and the
    event after that sleep is the next yielded chunk, or there is none (the
    generator ends): exactly one wait of 0.05 seconds separates a word from
    the next, whatever the word, the answer or the request.  Every sleep it
    performs is of 0.05 seconds. *)
Theorem stream_generator_fixed_delay (M K : json) (o : oracle) (q : string)
    (h : list json) :
  (forall i c, nth_error (trace o (stream_generator M K q h)) i = Some (EYield c) ->
     nth_error (trace o (stream_generator M K q h)) (S i) = Some (ESleep (PyFloat "0.05")) /\
     (nth_error (trace o (stream_generator M K q h)) (S (S i)) = None \/
      exists c', nth_error (trace o (stream_generator M K q h)) (S (S i)) = Some (EYield c'))) /\
  (forall d, In (ESleep d) (trace o (stream_generator M K q h)) -> d = PyFloat "0.05").
Proof.
  pose proof (generate_rag_answer_only_calls M K o q h) as Hcalls.
  unfold trace in *. rewrite run_stream_generator.
  destruct (run o (generate_rag_answer M K q h)) as [t [e | answer]]; simpl in *.
  2: destruct (py_split_method answer) as [e | words]; simpl.
  1,2: split; [intros i c Hi; apply nth_error_In in Hi;
                 rewrite Forall_forall in Hcalls; destruct (Hcalls _ Hi)
              | intros d Hd; rewrite Forall_forall in Hcalls; destruct (Hcalls _ Hd)].
  split.
  - intros i c Hi. destruct (Nat.lt_ge_cases i (length t)) as [Hlt | Hge].
    + rewrite nth_error_app1 in Hi by exact Hlt. apply nth_error_In in Hi.
      rewrite Forall_forall in Hcalls. destruct (Hcalls _ Hi).
    + rewrite nth_error_app2 in Hi by exact Hge.
      change (nth_error (app t (word_events words)) (S i) = Some (ESleep (PyFloat "0.05")) /\
              (nth_error (app t (word_events words)) (S (S i)) = None \/
               exists c', nth_error (app t (word_events words)) (S (S i)) = Some (EYield c'))).
      rewrite !nth_error_app2 by lia.
      replace (S i - length t) with (S (i - length t)) by lia.
      replace (S (S i) - length t) with (S (S (i - length t))) by lia.
      split; [eapply word_events_sleep_after_yield; exact Hi |].
      eapply word_events_after_sleep. exact Hi.
  - intros d Hd. apply in_app_or in Hd. destruct Hd as [Hd | Hd].
    + rewrite Forall_forall in Hcalls. destruct (Hcalls _ Hd).
    + eapply word_events_sleeps. exact Hd.
Qed.

(** C7: [/rag/query] never raises: it performs the events of the steps in
    its [try], and returns [{"response": answer}] when they return [answer]
    and [{"error": str(e)}] when they raise [e]; either way the result is a
    dict with exactly one key, ["response"] or ["error"]. *)
Theorem rag_query_endpoint_never_raises (M K : json) (o : oracle) (ms : list message) :
  run o (rag_query_endpoint M K ms) =
    (trace o (rag_query_answer M K ms),
     match outcome o (rag_query_answer M K ms) with
     | inr answer => inr (JObj [("response", answer)])
     | inl e => inr (JObj [("error", JStr (exc_str e))])
     end) /\
  exists k v, outcome o (rag_query_endpoint M K ms) = inr (JObj [(k, v)]) /\
              (k = "response" \/ k = "error").
Proof.
  split; [apply run_rag_query_endpoint |].
  unfold outcome at 1. rewrite run_rag_query_endpoint. simpl.
  destruct (outcome o (rag_query_answer M K ms)) as [e | a];
    eexists _, _; split; try reflexivity; auto.
Qed.

(** C8: on an empty message list, [/rag/query] catches the [IndexError] of
    [messages[-1]] and returns an error dict, while [/rag/stream] raises that
    [IndexError] out of the endpoint, before any service call and before a
    streaming response exists. *)
Theorem empty_messages_endpoints_differ (M K : json) (o : oracle) :
  run o (rag_query_endpoint M K []) =
    ([], inr (JObj [("error", JStr "list index out of range")])) /\
  run o (rag_stream_endpoint M K []) =
    ([], inl (Exn IndexError "list index out of range")) /\
  serve_stream M K o [] = ([], inl (Exn IndexError "list index out of range")).
Proof. repeat split; reflexivity. Qed.

(** C5: for a request of messages [ms ++ [m]], both endpoints take [ms] as
    the history and the content of [m] as the query (the role of [m] is not
    read); the answer is computed by one retrieval for that query with
    [numberOfResults] 3, then one model call whose payload holds a single
    user message, the prompt built from the knowledge-base context, the
    history lines [role: content] joined by newlines, the query and the
    fixed instructions, with [max_tokens] 1024 and [temperature] 0.5. *)
Theorem endpoints_build_prompt (M K : json) (o : oracle) (ms : list message)
    (m : message) (kb : string) :
  outcome o (retrieve_from_kb K (content m) 3) = inr kb ->
  trace o (rag_query_endpoint M K (ms ++ [m])) = described_calls M K kb ms m /\
  run o (rag_stream_endpoint M K (ms ++ [m])) =
    ([], inr (StreamingResponse (stream_generator M K (content m) (history_of ms))
                "text/plain")) /\
  firstn 2 (trace o (stream_generator M K (content m) (history_of ms))) =
    described_calls M K kb ms m.
Proof.
  intros Hkb. unfold outcome in Hkb. rewrite run_retrieve_from_kb in Hkb. simpl in Hkb.
  assert (Hgen : trace o (generate_rag_answer M K (content m) (history_of ms)) =
                 described_calls M K kb ms m).
  { unfold trace. rewrite run_generate_rag_answer, Hkb. simpl.
    unfold model_call, described_calls. rewrite rag_prompt_parts. reflexivity. }
  split; [| split].
  - unfold trace at 1. rewrite run_rag_query_endpoint. simpl.
    rewrite rag_query_answer_snoc. exact Hgen.
  - rewrite rag_stream_endpoint_snoc. reflexivity.
  - revert Hgen. unfold trace. rewrite run_stream_generator.
    destruct (run o (generate_rag_answer M K (content m) (history_of ms))) as [t [e | a]];
      simpl; intros Hgen; subst t; [reflexivity |].
    destruct (py_split_method a); reflexivity.
Qed.

(** C4: [retrieve_from_kb] makes exactly one retrieval call, with the query
    text and [numberOfResults] equal to [top_k] ([generate_rag_answer] passes
    3), and, on a response of well-formed results, returns the results with
    [content.text] as ["Document {i+1}: {text}"] ([i] their index in the
    service's list, so numbering skips dropped results), in the service's
    order, joined with blank lines; results without [content.text] are
    dropped, nothing is re-ranked or truncated. *)
Theorem retrieve_from_kb_formats_results (M K : json) (o : oracle) (q : string)
    (top_k : Z) (h : list json) (response : json) (docs : list json) :
  o (Retrieve (kb_request K q top_k)) = inr response ->
  kb_response_docs response = Some docs ->
  forallb result_shaped docs = true ->
  trace o (retrieve_from_kb K q top_k) = [ESvc (Retrieve (kb_request K q top_k))] /\
  outcome o (retrieve_from_kb K q top_k) = inr (py_join (nl ++ nl) (kb_entries 1 docs)) /\
  firstn 1 (trace o (generate_rag_answer M K q h)) = [ESvc (Retrieve (kb_request K q 3))].
Proof.
  intros Ho Hdocs Hs. unfold trace, outcome. rewrite run_retrieve_from_kb, Ho.
  split; [reflexivity | split].
  - simpl. unfold unwrap_kb_response.
    destruct response as [| | | | | | fs]; try discriminate. simpl in Hdocs |- *.
    destruct (assoc "retrievalResults" fs) as [r |] eqn:Hr.
    + destruct r; try discriminate. injection Hdocs as <-. simpl.
      rewrite format_docs_shaped by exact Hs. reflexivity.
    + injection Hdocs as <-. reflexivity.
  - unfold generate_rag_answer. rewrite run_bind, run_retrieve_from_kb.
    destruct (rbind _ unwrap_kb_response); [reflexivity |].
    reflexivity.
Qed.

(** C6: when the model's response body is a dict, [generate_llm_answer]
    returns the ["text"] of the first element of a non-empty ["content"]
    list ([""] when that element has no ["text"]), and the literal
    ["No response from model."] when ["content"] is absent, null or
    empty. *)
Theorem generate_llm_answer_unwraps (M : json) (o : oracle) (prompt : string) (mt : Z)
    (temp : pyfloat) (fs : list (string * json)) :
  o (InvokeModel M (llm_payload prompt mt temp) "application/json" "application/json")
    = inr (JObj fs) ->
  ((assoc "content" fs = None \/ assoc "content" fs = Some JNull \/
    assoc "content" fs = Some (JArr [])) ->
   outcome o (generate_llm_answer M prompt mt temp) = inr (JStr "No response from model.")) /\
  (forall first rest, assoc "content" fs = Some (JArr (JObj first :: rest)) ->
   outcome o (generate_llm_answer M prompt mt temp) =
     inr (match assoc "text" first with Some t => t | None => JStr "" end)).
Proof.
  intros Ho. unfold outcome. rewrite run_generate_llm_answer, Ho. simpl.
  apply unwrap_llm_response_cases.
Qed.

(** An oracle for the examples: the knowledge base returns no result, the
    model returns a body with the given ["content"]. *)
Definition example_oracle (model_content : json) : oracle :=
  fun c => match c with
           | Retrieve _ => inr (JObj [("retrievalResults", JArr [])])
           | InvokeModel _ _ _ _ => inr (JObj [("content", model_content)])
           end.

Definition example_request : list message := [Message "user" "hi"].

(** C3, refuted: the model returns an empty ["content"] list, so there is
    no model text at all, yet [/rag/query] answers with a text the backend
    supplies itself. *)
Lemma rag_query_fallback_not_model_text :
  example_oracle (JArr []) (model_call (JStr "model") "" [] "hi") = inr (JObj [("content", JArr [])]) /\
  outcome (example_oracle (JArr [])) (rag_query_endpoint (JStr "model") (JStr "kb") example_request)
    = inr (JObj [("response", JStr "No response from model.")]).
Proof. split; reflexivity. Qed.

(** C3, as the code has it: on a request [ms ++ [m]] whose retrieval
    succeeds, when the model's body is a dict whose ["content"] is a
    non-empty list with a dict first element, the ["response"] of
    [/rag/query] is that element's ["text"] unchanged ([""] without one);
    when ["content"] is absent, null or empty it is the backend's fixed
    ["No response from model."]. *)
Theorem rag_query_response_is_model_text (M K : json) (o : oracle) (ms : list message)
    (m : message) (kb : string) (fs : list (string * json)) :
  outcome o (retrieve_from_kb K (content m) 3) = inr kb ->
  o (model_call M kb ms (content m)) = inr (JObj fs) ->
  (forall first rest, assoc "content" fs = Some (JArr (JObj first :: rest)) ->
   outcome o (rag_query_endpoint M K (ms ++ [m])) =
     inr (JObj [("response", match assoc "text" first with Some t => t | None => JStr "" end)])) /\
  ((assoc "content" fs = None \/ assoc "content" fs = Some JNull \/
    assoc "content" fs = Some (JArr [])) ->
   outcome o (rag_query_endpoint M K (ms ++ [m])) =
     inr (JObj [("response", JStr "No response from model.")])).
Proof.
  intros Hkb Hm. unfold outcome in Hkb. rewrite run_retrieve_from_kb in Hkb. simpl in Hkb.
  destruct (unwrap_llm_response_cases fs) as [Hempty Hfirst].
  unfold outcome. rewrite run_rag_query_endpoint. unfold outcome.
  rewrite rag_query_answer_snoc, run_generate_rag_answer, Hkb. simpl. rewrite Hm. simpl.
  split.
  - intros first rest H. rewrite (Hfirst first rest H). reflexivity.
  - intros H. rewrite (Hempty H). reflexivity.
Qed.

(** C1, refuted: the model answers ["hi"]; [/rag/query] returns ["hi"],
    while [/rag/stream] delivers ["hi "]. *)
Lemma stream_differs_from_query :
  outcome (example_oracle (JArr [JObj [("text", JStr "hi")]]))
    (rag_query_endpoint (JStr "model") (JStr "kb") example_request)
    = inr (JObj [("response", JStr "hi")]) /\
  delivered (fst (serve_stream (JStr "model") (JStr "kb")
                    (example_oracle (JArr [JObj [("text", JStr "hi")]])) example_request))
    = "hi " /\
  "hi " <> "hi".
Proof. split; [reflexivity | split; [reflexivity | discriminate]]. Qed.

(** C1, as the code has it: when [/rag/query] answers a string [a], the
    stream of [/rag/stream] against the same services completes and
    delivers the words of [a.split()], each followed by one space: the
    words of [a] joined by single spaces with one trailing space (nothing
    when [a] has no word), not [a] itself. *)
Theorem stream_delivers_split_answer (M K : json) (o : oracle) (ms : list message)
    (a : string) :
  outcome o (rag_query_endpoint M K ms) = inr (JObj [("response", JStr a)]) ->
  delivered (fst (serve_stream M K o ms)) = String.concat "" (map (fun w => w ++ " ") (py_split a)) /\
  snd (serve_stream M K o ms) = inr tt.
Proof.
  induction ms as [| m ms _] using rev_ind; [discriminate |].
  unfold outcome. rewrite run_rag_query_endpoint. simpl. unfold outcome.
  rewrite rag_query_answer_snoc, serve_stream_snoc.
  pose proof (generate_rag_answer_only_calls M K o (content m) (history_of ms)) as Hcalls.
  unfold trace in Hcalls. rewrite run_stream_generator.
  destruct (run o (generate_rag_answer M K (content m) (history_of ms))) as [t [e | ans]];
    simpl; [discriminate |].
  intros H. injection H as ->. simpl in Hcalls |- *. split; [| reflexivity].
  unfold delivered. rewrite chunks_app, (chunks_only_calls _ Hcalls), chunks_word_events.
  reflexivity.
Qed.

(** [send_query] never lets an exception out: every [Exception] the body of
    its [try] raises is caught by one of its three handlers. *)
Lemma send_query_never_raises (U : string) (post : string -> json -> res http_response)
    (loads : string -> string + json) (messages : list json) :
  exists v, send_query U post loads messages = inr v.
Proof.
  unfold send_query. destruct (send_query_try U post loads messages) as [e | v]; eauto.
  rewrite isinstance_Exception.
  destruct (isinstance e RequestException); [eauto |].
  destruct (isinstance e JSONDecodeError); eauto.
Qed.

(** C9, the divergence: the backend answers 200 with a body that is not
    JSON.  [Response.json()] raises [requests.exceptions.JSONDecodeError],
    a [RequestException], so the first handler answers
    ["Connection error: ..."] and the handler meant for decode failures,
    ["Error: Invalid response format"], is never reached. *)
Theorem send_query_non_json_body (U : string) (post : string -> json -> res http_response)
    (loads : string -> string + json) (messages : list json) (payload : json)
    (u body msg : string) :
  format_messages_for_api messages = inr payload ->
  post (RAG_QUERY_ENDPOINT U) payload = inr (HttpResponse 200 "OK" u body) ->
  loads body = inl msg ->
  send_query U post loads messages = inr (JStr ("Connection error: " ++ msg)) /\
  JStr ("Connection error: " ++ msg) <> JStr "Error: Invalid response format".
Proof.
  intros Hf Hp Hl. split; [| discriminate].
  unfold send_query, send_query_try. rewrite Hf. simpl. rewrite Hp. simpl.
  unfold response_json. simpl. rewrite Hl. reflexivity.
Qed.

(* ------------------------------------------------------------------ *)
(** ** The theorems at concrete inputs *)

Definition example_answer : json := JArr [JObj [("type", JStr "text"); ("text", JStr "Hello  world")]].

Lemma stream_generator_streams_precomputed_answer_witness :
  outcome (example_oracle example_answer)
    (generate_rag_answer (JStr "model") (JStr "kb") "hi" []) = inr (JStr "Hello  world") /\
  chunks (trace (example_oracle example_answer)
            (stream_generator (JStr "model") (JStr "kb") "hi" [])) = ["Hello "; "world "].
Proof.
  split; [reflexivity |].
  exact (proj1 (proj2 (proj2 (stream_generator_streams_precomputed_answer
            (JStr "model") (JStr "kb") (example_oracle example_answer) "hi" [])))
           "Hello  world" eq_refl).
Defined.

Lemma stream_generator_fixed_delay_witness :
  nth_error (trace (example_oracle example_answer)
               (stream_generator (JStr "model") (JStr "kb") "hi" [])) 2 = Some (EYield "Hello ") /\
  nth_error (trace (example_oracle example_answer)
               (stream_generator (JStr "model") (JStr "kb") "hi" [])) 3
    = Some (ESleep (PyFloat "0.05")) /\
  (nth_error (trace (example_oracle example_answer)
                (stream_generator (JStr "model") (JStr "kb") "hi" [])) 4 = None \/
   exists c', nth_error (trace (example_oracle example_answer)
                (stream_generator (JStr "model") (JStr "kb") "hi" [])) 4 = Some (EYield c')).
Proof.
  split; [reflexivity |].
  apply (proj1 (stream_generator_fixed_delay (JStr "model") (JStr "kb")
                  (example_oracle example_answer) "hi" []) 2 "Hello ").
  reflexivity.
Defined.

Lemma endpoints_build_prompt_witness :
  outcome (example_oracle example_answer) (retrieve_from_kb (JStr "kb") "what?" 3) = inr "" /\
  trace (example_oracle example_answer)
    (rag_query_endpoint (JStr "model") (JStr "kb") [Message "user" "hi"; Message "user" "what?"])
    = described_calls (JStr "model") (JStr "kb") "" [Message "user" "hi"] (Message "user" "what?").
Proof.
  split; [reflexivity |].
  apply (endpoints_build_prompt (JStr "model") (JStr "kb") (example_oracle example_answer)
           [Message "user" "hi"] (Message "user" "what?") "").
  reflexivity.
Defined.

(** A knowledge base answering three results, the second without
    [content.text]. *)
Definition kb_results : list json :=
  [JObj [("content", JObj [("text", JStr "alpha")])];
   JObj [("content", JObj [("type", JStr "TEXT")])];
   JObj [("content", JObj [("text", JStr "gamma")])]].

Definition kb_oracle : oracle :=
  fun c => match c with
           | Retrieve _ => inr (JObj [("retrievalResults", JArr kb_results)])
           | InvokeModel _ _ _ _ => inr (JObj [("content", example_answer)])
           end.

Lemma retrieve_from_kb_formats_results_witness :
  outcome kb_oracle (retrieve_from_kb (JStr "kb") "q" 3)
    = inr ("Document 1: alpha" ++ nl ++ nl ++ "Document 3: gamma").
Proof.
  destruct (retrieve_from_kb_formats_results (JStr "model") (JStr "kb") kb_oracle "q" 3 []
              (JObj [("retrievalResults", JArr kb_results)]) kb_results
              eq_refl eq_refl eq_refl) as [_ [H _]].
  exact H.
Defined.

Lemma generate_llm_answer_unwraps_witness :
  outcome (example_oracle example_answer)
    (generate_llm_answer (JStr "model") "p" 1024 (PyFloat "0.5")) = inr (JStr "Hello  world").
Proof.
  exact (proj2 (generate_llm_answer_unwraps (JStr "model") (example_oracle example_answer)
                  "p" 1024 (PyFloat "0.5") [("content", example_answer)] eq_refl)
           [("type", JStr "text"); ("text", JStr "Hello  world")] [] eq_refl).
Defined.

Lemma rag_query_response_is_model_text_witness :
  outcome (example_oracle example_answer)
    (rag_query_endpoint (JStr "model") (JStr "kb") ([] ++ [Message "user" "hi"]))
    = inr (JObj [("response", JStr "Hello  world")]).
Proof.
  exact (proj1 (rag_query_response_is_model_text (JStr "model") (JStr "kb")
                  (example_oracle example_answer) [] (Message "user" "hi") ""
                  [("content", example_answer)] eq_refl eq_refl)
           [("type", JStr "text"); ("text", JStr "Hello  world")] [] eq_refl).
Defined.

Lemma stream_delivers_split_answer_witness :
  delivered (fst (serve_stream (JStr "model") (JStr "kb") (example_oracle example_answer)
                    example_request)) = "Hello world ".
Proof.
  exact (proj1 (stream_delivers_split_answer (JStr "model") (JStr "kb")
                  (example_oracle example_answer) example_request "Hello  world" eq_refl)).
Defined.

Lemma send_query_non_json_body_witness :
  send_query "http://backend:8000"
    (fun u _ => inr (HttpResponse 200 "OK" u "<html></html>"))
    (fun _ => inl "Expecting value: line 1 column 1 (char 0)")
    [JObj [("role", JStr "user"); ("content", JStr "hi")]]
  = inr (JStr "Connection error: Expecting value: line 1 column 1 (char 0)").
Proof.
  exact (proj1 (send_query_non_json_body "http://backend:8000"
                  (fun u _ => inr (HttpResponse 200 "OK" u "<html></html>"))
                  (fun _ => inl "Expecting value: line 1 column 1 (char 0)")
                  [JObj [("role", JStr "user"); ("content", JStr "hi")]]
                  (JObj [("messages", JArr [JObj [("role", JStr "user"); ("content", JStr "hi")]])])
                  "http://backend:8000/rag/query" "<html></html>"
                  "Expecting value: line 1 column 1 (char 0)" eq_refl eq_refl eq_refl)).
Defined.

(* ------------------------------------------------------------------ *)
(** ** Further properties of the backend *)

Lemma outcome_retrieve_from_kb (K : json) (o : oracle) (q : string) (k : Z) :
  outcome o (retrieve_from_kb K q k) =
  rbind (o (Retrieve (kb_request K q k))) unwrap_kb_response.
Proof. unfold outcome. rewrite run_retrieve_from_kb. reflexivity. Qed.

(** [/rag/query] on [ms ++ [m]] makes the retrieval call first, then the
    model call only when retrieval (with its unwrapping) succeeded, and no
    other call. *)
Theorem rag_query_trace_shape (M K : json) (o : oracle) (ms : list message) (m : message) :
  trace o (rag_query_endpoint M K (ms ++ [m])) =
  ESvc (Retrieve (kb_request K (content m) 3)) ::
  match outcome o (retrieve_from_kb K (content m) 3) with
  | inl _ => []
  | inr kb => [ESvc (model_call M kb ms (content m))]
  end.
Proof.
  unfold trace at 1. rewrite run_rag_query_endpoint. simpl fst.
  unfold trace. rewrite rag_query_answer_snoc, run_generate_rag_answer,
    outcome_retrieve_from_kb.
  destruct (rbind _ unwrap_kb_response); reflexivity.
Qed.

(** A failure of retrieval (the service call or the unwrapping of its
    answer) or of the model call is reported by [/rag/query] as
    [{"error": str(e)}]. *)
Theorem rag_query_reports_failures (M K : json) (o : oracle) (ms : list message)
    (m : message) (e : exn) :
  (outcome o (retrieve_from_kb K (content m) 3) = inl e ->
   outcome o (rag_query_endpoint M K (ms ++ [m])) = inr (JObj [("error", JStr (exc_str e))])) /\
  (forall kb, outcome o (retrieve_from_kb K (content m) 3) = inr kb ->
   o (model_call M kb ms (content m)) = inl e ->
   outcome o (rag_query_endpoint M K (ms ++ [m])) = inr (JObj [("error", JStr (exc_str e))])).
Proof.
  rewrite outcome_retrieve_from_kb.
  assert (Hq : outcome o (rag_query_endpoint M K (ms ++ [m])) =
    match rbind (o (Retrieve (kb_request K (content m) 3))) unwrap_kb_response with
    | inl e' => inr (JObj [("error", JStr (exc_str e'))])
    | inr kb => match rbind (o (model_call M kb ms (content m))) unwrap_llm_response with
                | inl e' => inr (JObj [("error", JStr (exc_str e'))])
                | inr a => inr (JObj [("response", a)])
                end
    end).
  { unfold outcome. rewrite run_rag_query_endpoint. unfold outcome.
    rewrite rag_query_answer_snoc, run_generate_rag_answer.
    destruct (rbind _ unwrap_kb_response); simpl; [reflexivity |].
    destruct (rbind _ unwrap_llm_response); reflexivity. }
  rewrite Hq. split.
  - intros H. rewrite H. reflexivity.
  - intros kb Hkb Hm. rewrite Hkb. simpl. rewrite Hm. reflexivity.
Qed.

(** The same failures in [/rag/stream]: the endpoint has already returned
    its streaming response, the generator yields nothing, and the exception
    escapes it while the response is being sent. *)
Theorem stream_failures_escape (M K : json) (o : oracle) (ms : list message)
    (m : message) (e : exn) :
  (outcome o (retrieve_from_kb K (content m) 3) = inl e ->
   serve_stream M K o (ms ++ [m]) = ([ESvc (Retrieve (kb_request K (content m) 3))], inl e)) /\
  (forall kb, outcome o (retrieve_from_kb K (content m) 3) = inr kb ->
   o (model_call M kb ms (content m)) = inl e ->
   serve_stream M K o (ms ++ [m]) =
     ([ESvc (Retrieve (kb_request K (content m) 3)); ESvc (model_call M kb ms (content m))],
      inl e)).
Proof.
  rewrite outcome_retrieve_from_kb, serve_stream_snoc, run_stream_generator,
    run_generate_rag_answer.
  split.
  - intros H. rewrite H. reflexivity.
  - intros kb Hkb Hm. rewrite Hkb. simpl. rewrite Hm. reflexivity.
Qed.

(** Malformed model bodies make [generate_llm_answer] raise
    [AttributeError]: a body that is not a dict, a ["content"] list whose
    first element is not a dict, and a non-empty string ["content"]. *)
Theorem unwrap_llm_response_malformed :
  (forall v, (forall fs, v <> JObj fs) ->
   unwrap_llm_response v =
     inl (Exn AttributeError ("'" ++ py_type_name v ++ "' object has no attribute 'get'"))) /\
  (forall fs x rest, assoc "content" fs = Some (JArr (x :: rest)) -> (forall gs, x <> JObj gs) ->
   unwrap_llm_response (JObj fs) =
     inl (Exn AttributeError ("'" ++ py_type_name x ++ "' object has no attribute 'get'"))) /\
  (forall fs c s, assoc "content" fs = Some (JStr (String c s)) ->
   unwrap_llm_response (JObj fs) =
     inl (Exn AttributeError "'str' object has no attribute 'get'")).
Proof.
  split; [| split].
  - intros v Hv. destruct v as [| | | | | | fs]; try reflexivity.
    exfalso. exact (Hv fs eq_refl).
  - intros fs x rest H Hx. unfold unwrap_llm_response. simpl. rewrite H. simpl.
    destruct x as [| | | | | | gs]; try reflexivity.
    exfalso. exact (Hx gs eq_refl).
  - intros fs c s H. unfold unwrap_llm_response. simpl. rewrite H. reflexivity.
Qed.

(** When the model's ["text"] is not a string, [/rag/query] passes it on
    unchanged as ["response"], while the stream of [/rag/stream] yields
    nothing and fails on [answer.split()]. *)
Theorem non_string_text_query_vs_stream (M K : json) (o : oracle) (ms : list message)
    (m : message) (kb : string) (fs first : list (string * json)) (rest : list json)
    (v : json) :
  outcome o (retrieve_from_kb K (content m) 3) = inr kb ->
  o (model_call M kb ms (content m)) = inr (JObj fs) ->
  assoc "content" fs = Some (JArr (JObj first :: rest)) ->
  assoc "text" first = Some v ->
  (forall s, v <> JStr s) ->
  outcome o (rag_query_endpoint M K (ms ++ [m])) = inr (JObj [("response", v)]) /\
  serve_stream M K o (ms ++ [m]) =
    ([ESvc (Retrieve (kb_request K (content m) 3)); ESvc (model_call M kb ms (content m))],
     inl (Exn AttributeError ("'" ++ py_type_name v ++ "' object has no attribute 'split'"))).
Proof.
  intros Hkb Hm Hc Ht Hv. rewrite outcome_retrieve_from_kb in Hkb.
  destruct (unwrap_llm_response_cases fs) as [_ Hfirst].
  pose proof (Hfirst first rest Hc) as Hu. rewrite Ht in Hu.
  split.
  - unfold outcome. rewrite run_rag_query_endpoint. unfold outcome.
    rewrite rag_query_answer_snoc, run_generate_rag_answer, Hkb. simpl.
    rewrite Hm. simpl. rewrite Hu. reflexivity.
  - rewrite serve_stream_snoc, run_stream_generator, run_generate_rag_answer, Hkb. simpl.
    rewrite Hm. simpl. rewrite Hu.
    destruct v as [| | | | s | |]; try reflexivity.
    exfalso. exact (Hv s eq_refl).
Qed.

Definition is_sleep (ev : event) : bool := match ev with ESleep _ => true | _ => false end.

Lemma filter_is_sleep_calls (t : list event) : Forall is_svc t -> filter is_sleep t = [].
Proof.
  induction 1 as [| ev t Hev _ IH]; [reflexivity |].
  destruct ev; simpl in *; tauto.
Qed.

Lemma filter_is_sleep_word_events (words : list string) :
  length (filter is_sleep (word_events words)) = length words.
Proof.
  induction words as [| w words IH]; [reflexivity |]. simpl. rewrite IH. reflexivity.
Qed.

(** A stream of an answer [a] performs one [asyncio.sleep(0.05)] per chunk
    and one chunk per word of [a.split()]: its waiting time grows with the
    number of words only. *)
Theorem stream_one_sleep_per_chunk (M K : json) (o : oracle) (q : string) (h : list json)
    (a : string) :
  outcome o (generate_rag_answer M K q h) = inr (JStr a) ->
  length (filter is_sleep (trace o (stream_generator M K q h))) = length (py_split a) /\
  length (chunks (trace o (stream_generator M K q h))) = length (py_split a).
Proof.
  pose proof (generate_rag_answer_only_calls M K o q h) as Hcalls.
  unfold outcome, trace in *. rewrite run_stream_generator.
  destruct (run o (generate_rag_answer M K q h)) as [t [e | ans]]; simpl in *;
    [discriminate |].
  intros H. injection H as ->. simpl.
  rewrite filter_app, chunks_app, (filter_is_sleep_calls _ Hcalls),
    (chunks_only_calls _ Hcalls), chunks_word_events, length_app,
    filter_is_sleep_word_events.
  simpl. rewrite length_map. split; reflexivity.
Qed.

(* ------------------------------------------------------------------ *)
(** ** Further properties of the frontend *)

(** A message of the backend's [Message] model as the script stores it. *)
Definition session_entry (m : message) : json :=
  session_message (role m) (JStr (content m)).

Lemma map_res_fixed {A} (f : A -> res A) (l : list A) :
  Forall (fun x => f x = inr x) l -> map_res f l = inr l.
Proof.
  induction 1 as [| x l Hx _ IH]; [reflexivity |].
  simpl. rewrite Hx. simpl. rewrite IH. reflexivity.
Qed.

Lemma format_session_entries (l : list json) :
  Forall (fun x => exists m, x = session_entry m) l ->
  format_messages_for_api l = inr (JObj [("messages", JArr l)]).
Proof.
  intros Hl. unfold format_messages_for_api. rewrite map_res_fixed; [reflexivity |].
  eapply Forall_impl; [| exact Hl]. intros x [m ->]. reflexivity.
Qed.

Lemma parse_session_entries (ms : list message) :
  parse_messages (map session_entry ms) = Some ms.
Proof.
  induction ms as [| [r c] ms IH]; [reflexivity |]. simpl. rewrite IH. reflexivity.
Qed.

(** The request [send_query] builds from a chat history and a new prompt
    is accepted by the backend's [ChatRequest] model, which gives back the
    same messages; [/rag/query] then answers the prompt with the earlier
    messages as history. *)
Theorem chat_request_round_trip (M K : json) (ms : list message) (prompt : string) :
  format_messages_for_api
    (app (map session_entry ms) [session_message "user" (JStr prompt)]) =
    inr (JObj [("messages",
                JArr (map session_entry (app ms [Message "user" prompt])))]) /\
  parse_chat_request (JObj [("messages",
                JArr (map session_entry (app ms [Message "user" prompt])))]) =
    Some (app ms [Message "user" prompt]) /\
  rag_query_answer M K (app ms [Message "user" prompt]) =
    generate_rag_answer M K prompt (history_of ms).
Proof.
  split; [| split].
  - rewrite map_app. apply format_session_entries.
    apply Forall_forall. intros x Hx. rewrite <- map_app in Hx. apply in_map_iff in Hx.
    destruct Hx as [m [<- _]]. eauto.
  - apply parse_session_entries.
  - apply rag_query_answer_snoc.
Qed.

Lemma raise_for_status_ok (r : http_response) :
  (status_code r < 400)%Z -> raise_for_status r = inr tt.
Proof.
  intros H. unfold raise_for_status.
  replace ((400 <=? status_code r)%Z) with false by (symmetry; apply Z.leb_gt; lia).
  replace ((500 <=? status_code r)%Z) with false by (symmetry; apply Z.leb_gt; lia).
  reflexivity.
Qed.

Lemma eqb_app_nonempty (a b : string) : b <> "" -> String.eqb (a ++ b) "" = false.
Proof.
  intros Hb. destruct a; simpl; [| reflexivity]. destruct b; [congruence | reflexivity].
Qed.

Lemma raise_for_status_client (r : http_response) :
  (400 <= status_code r < 500)%Z ->
  raise_for_status r =
    inl (Exn HTTPError (py_str_int (status_code r) ++ " Client Error: " ++ reason r ++
                        " for url: " ++ url r)).
Proof.
  intros H. unfold raise_for_status.
  replace ((400 <=? status_code r)%Z) with true by (symmetry; apply Z.leb_le; lia).
  replace ((status_code r <? 500)%Z) with true by (symmetry; apply Z.ltb_lt; lia).
  simpl. rewrite eqb_app_nonempty by discriminate. reflexivity.
Qed.

Lemma raise_for_status_server (r : http_response) :
  (500 <= status_code r < 600)%Z ->
  raise_for_status r =
    inl (Exn HTTPError (py_str_int (status_code r) ++ " Server Error: " ++ reason r ++
                        " for url: " ++ url r)).
Proof.
  intros H. unfold raise_for_status.
  replace ((400 <=? status_code r)%Z) with true by (symmetry; apply Z.leb_le; lia).
  replace ((status_code r <? 500)%Z) with false by (symmetry; apply Z.ltb_ge; lia).
  replace ((500 <=? status_code r)%Z) with true by (symmetry; apply Z.leb_le; lia).
  replace ((status_code r <? 600)%Z) with true by (symmetry; apply Z.ltb_lt; lia).
  simpl. rewrite eqb_app_nonempty by discriminate. reflexivity.
Qed.

(** When the backend answers with a status below 400 and a JSON dict,
    [send_query] shows ["Error: " + str(error)] if the dict has an
    ["error"] key (whatever its ["response"]), else its ["response"], else
    ["No response received"]. *)
Theorem send_query_dict_reply (U : string) (post : string -> json -> res http_response)
    (loads : string -> string + json) (messages : list json) (payload : json)
    (r : http_response) (fs : list (string * json)) :
  format_messages_for_api messages = inr payload ->
  post (RAG_QUERY_ENDPOINT U) payload = inr r ->
  (status_code r < 400)%Z ->
  loads (text r) = inr (JObj fs) ->
  send_query U post loads messages =
    inr (match assoc "error" fs with
         | Some e => JStr ("Error: " ++ py_str e)
         | None => match assoc "response" fs with
                   | Some v => v
                   | None => JStr "No response received"
                   end
         end).
Proof.
  intros Hf Hp Hs Hl. unfold send_query, send_query_try. rewrite Hf. simpl. rewrite Hp.
  simpl. rewrite (raise_for_status_ok r Hs). simpl.
  unfold response_json. rewrite Hl. simpl.
  destruct (assoc "error" fs); reflexivity.
Qed.

(** [send_query] turns the failures of the request into a
    ["Connection error: ..."] text: an exception of [requests.post] that is
    a [RequestException] (its message), and a status from 400 to 599 (the
    message of [raise_for_status]). *)
Theorem send_query_connection_errors (U : string) (post : string -> json -> res http_response)
    (loads : string -> string + json) (messages : list json) (payload : json) :
  format_messages_for_api messages = inr payload ->
  (forall e, post (RAG_QUERY_ENDPOINT U) payload = inl e ->
   isinstance e RequestException = true ->
   send_query U post loads messages = inr (JStr ("Connection error: " ++ exc_str e))) /\
  (forall r, post (RAG_QUERY_ENDPOINT U) payload = inr r ->
   (400 <= status_code r < 500)%Z ->
   send_query U post loads messages =
     inr (JStr ("Connection error: " ++ py_str_int (status_code r) ++ " Client Error: " ++
                reason r ++ " for url: " ++ url r))) /\
  (forall r, post (RAG_QUERY_ENDPOINT U) payload = inr r ->
   (500 <= status_code r < 600)%Z ->
   send_query U post loads messages =
     inr (JStr ("Connection error: " ++ py_str_int (status_code r) ++ " Server Error: " ++
                reason r ++ " for url: " ++ url r))).
Proof.
  intros Hf. unfold send_query, send_query_try. rewrite Hf. simpl.
  split; [| split].
  - intros e Hp He. rewrite Hp. simpl. rewrite He. reflexivity.
  - intros r Hp Hs. rewrite Hp. simpl. rewrite (raise_for_status_client r Hs). reflexivity.
  - intros r Hp Hs. rewrite Hp. simpl. rewrite (raise_for_status_server r Hs). reflexivity.
Qed.

Lemma stream_query_handle_one (e : exn) :
  exists c, stream_query_handle e = ([c], None) /\ c <> "".
Proof.
  unfold stream_query_handle. rewrite isinstance_Exception.
  destruct (isinstance e RequestException); eexists; split; try reflexivity; discriminate.
Qed.

Lemma stream_query_handled_spec (yielded : list string) (e : exn) :
  exists c, stream_query_handled yielded e = (app yielded [c], None) /\ c <> "".
Proof.
  unfold stream_query_handled. destruct (stream_query_handle_one e) as [c [-> Hc]]. eauto.
Qed.

Lemma filter_nonempty_spec (body : list string) :
  Forall (fun c => c <> "") (filter (fun chunk => negb (String.eqb chunk "")) body).
Proof.
  apply Forall_forall. intros c Hc. apply filter_In in Hc. destruct Hc as [_ Hc].
  intros ->. discriminate.
Qed.

Lemma string_append_nil_r (s : string) : (s ++ "")%string = s.
Proof. induction s as [| a s IH]; simpl; [| rewrite IH]; reflexivity. Qed.

Lemma concat_empty_sep (l : list string) :
  String.concat "" l = fold_right String.append "" l.
Proof.
  induction l as [| c l IH]; [reflexivity |]. simpl. rewrite <- IH.
  destruct l; simpl; [rewrite string_append_nil_r |]; reflexivity.
Qed.

Lemma concat_filter_nonempty (body : list string) :
  String.concat "" (filter (fun chunk => negb (String.eqb chunk "")) body) =
  String.concat "" body.
Proof.
  rewrite !concat_empty_sep.
  induction body as [| c body IH]; [reflexivity |].
  destruct c as [| a c]; simpl; rewrite IH; reflexivity.
Qed.

(** [stream_query] never lets an [Exception] escape, and every chunk it
    yields is non-empty (empty chunks of the body are skipped, and each
    handler yields one non-empty message). *)
Theorem stream_query_total_nonempty (U : string)
    (post : string -> json -> res (http_response * (list string * option exn)))
    (messages : list json) :
  snd (stream_query U post messages) = None /\
  Forall (fun c => c <> "") (fst (stream_query U post messages)).
Proof.
  unfold stream_query.
  assert (Hh : forall yielded e, Forall (fun c => c <> "") yielded ->
            snd (stream_query_handled yielded e) = None /\
            Forall (fun c => c <> "") (fst (stream_query_handled yielded e))).
  { intros yielded e Hy. destruct (stream_query_handled_spec yielded e) as [c [-> Hc]].
    split; [reflexivity |]. simpl. apply Forall_app. auto. }
  destruct (format_messages_for_api messages) as [e | payload]; [auto |].
  destruct (post (RAG_STREAM_ENDPOINT U) payload) as [e | [response [body failure]]]; [auto |].
  destruct (raise_for_status response) as [e | []]; [auto |].
  destruct failure as [e |]; [apply Hh, filter_nonempty_spec |].
  split; [reflexivity | apply filter_nonempty_spec].
Qed.

(** When the stream completes with a status below 400, [stream_query]
    yields the non-empty chunks of the body, in order, so the text
    assembled from them is the body's text. *)
Theorem stream_query_success (U : string)
    (post : string -> json -> res (http_response * (list string * option exn)))
    (messages : list json) (payload : json) (r : http_response) (body : list string) :
  format_messages_for_api messages = inr payload ->
  post (RAG_STREAM_ENDPOINT U) payload = inr (r, (body, None)) ->
  (status_code r < 400)%Z ->
  stream_query U post messages =
    (filter (fun chunk => negb (String.eqb chunk "")) body, None) /\
  String.concat "" (fst (stream_query U post messages)) = String.concat "" body.
Proof.
  intros Hf Hp Hs.
  assert (H : stream_query U post messages =
                (filter (fun chunk => negb (String.eqb chunk "")) body, None)).
  { unfold stream_query. rewrite Hf, Hp, (raise_for_status_ok r Hs). reflexivity. }
  split; [exact H |]. rewrite H. apply concat_filter_nonempty.
Qed.

(** The failures of [stream_query] that are [RequestException]s end the
    stream with one ["Connection error: ..."] chunk: a failed
    [requests.post] (nothing else is yielded), an error status from 400 to
    599 (nothing else is yielded), and a failure while reading the body
    (after the non-empty chunks read so far). *)
Theorem stream_query_connection_errors (U : string)
    (post : string -> json -> res (http_response * (list string * option exn)))
    (messages : list json) (payload : json) :
  format_messages_for_api messages = inr payload ->
  (forall e, post (RAG_STREAM_ENDPOINT U) payload = inl e ->
   isinstance e RequestException = true ->
   stream_query U post messages = (["Connection error: " ++ exc_str e], None)) /\
  (forall r out, post (RAG_STREAM_ENDPOINT U) payload = inr (r, out) ->
   (400 <= status_code r < 500)%Z ->
   stream_query U post messages =
     (["Connection error: " ++ py_str_int (status_code r) ++ " Client Error: " ++
       reason r ++ " for url: " ++ url r], None)) /\
  (forall r out, post (RAG_STREAM_ENDPOINT U) payload = inr (r, out) ->
   (500 <= status_code r < 600)%Z ->
   stream_query U post messages =
     (["Connection error: " ++ py_str_int (status_code r) ++ " Server Error: " ++
       reason r ++ " for url: " ++ url r], None)) /\
  (forall r body e, post (RAG_STREAM_ENDPOINT U) payload = inr (r, (body, Some e)) ->
   (status_code r < 400)%Z ->
   isinstance e RequestException = true ->
   stream_query U post messages =
     (app (filter (fun chunk => negb (String.eqb chunk "")) body)
          ["Connection error: " ++ exc_str e], None)).
Proof.
  intros Hf. unfold stream_query. rewrite Hf.
  split; [| split; [| split]].
  - intros e Hp He. rewrite Hp. unfold stream_query_handled, stream_query_handle.
    rewrite He. reflexivity.
  - intros r [body failure] Hp Hs. rewrite Hp, (raise_for_status_client r Hs). reflexivity.
  - intros r [body failure] Hp Hs. rewrite Hp, (raise_for_status_server r Hs). reflexivity.
  - intros r body e Hp Hs He. rewrite Hp, (raise_for_status_ok r Hs).
    unfold stream_query_handled, stream_query_handle. rewrite He. reflexivity.
Qed.

Lemma ui_run_quiet (st_control : nat -> ui_call -> option script_control) (n : nat)
    (calls : list ui_call) :
  (forall k c, st_control k c = None) -> ui_run st_control n calls = None.
Proof.
  intros H. revert n. induction calls as [| c calls IH]; intros n; [reflexivity |].
  simpl. rewrite H. apply IH.
Qed.

Lemma chat_turn_cases (U : string) (post : string -> json -> res http_response)
    (loads : string -> string + json)
    (ps : string -> json -> res (http_response * (list string * option exn)))
    (st_control : nat -> ui_call -> option script_control)
    (use_streaming : bool) (ms : list json) (prompt : string) :
  (exists s, chat_turn U post loads ps st_control use_streaming ms prompt =
               (app ms [session_message "user" (JStr prompt)], Some (TurnStopped s))) \/
  (exists reply, chat_turn U post loads ps st_control use_streaming ms prompt =
     (app ms [session_message "user" (JStr prompt); session_message "assistant" reply], None)).
Proof.
  unfold chat_turn. destruct use_streaming.
  - destruct (stream_query_total_nonempty U ps (app ms [session_message "user" (JStr prompt)]))
      as [Hn _].
    destruct (stream_query U ps _) as [cs escaped]. simpl in Hn. subst escaped.
    cbn beta iota zeta.
    destruct (ui_run st_control 0 _); [left; eauto |].
    destruct (st_control _ _); [left; eauto |].
    right. eexists. rewrite <- app_assoc. reflexivity.
  - destruct (send_query_never_raises U post loads (app ms [session_message "user" (JStr prompt)]))
      as [v Hv].
    rewrite Hv. destruct (ui_run st_control 0 _); [left; eauto |].
    destruct (ui_run st_control _ _); [left; eauto |].
    right. eexists. rewrite <- app_assoc. reflexivity.
Qed.

Lemma chat_turn_quiet (U : string) (post : string -> json -> res http_response)
    (loads : string -> string + json)
    (ps : string -> json -> res (http_response * (list string * option exn)))
    (st_control : nat -> ui_call -> option script_control)
    (use_streaming : bool) (ms : list json) (prompt : string) :
  (forall n c, st_control n c = None) ->
  exists reply,
    chat_turn U post loads ps st_control use_streaming ms prompt =
      (app ms [session_message "user" (JStr prompt); session_message "assistant" reply], None) /\
    (use_streaming = true ->
     reply = JStr (String.concat ""
                     (fst (stream_query U ps (app ms [session_message "user" (JStr prompt)]))))) /\
    (use_streaming = false ->
     send_query U post loads (app ms [session_message "user" (JStr prompt)]) = inr reply).
Proof.
  intros Hq. unfold chat_turn. rewrite !ui_run_quiet by exact Hq. destruct use_streaming.
  - destruct (stream_query_total_nonempty U ps (app ms [session_message "user" (JStr prompt)]))
      as [Hn _].
    destruct (stream_query U ps _) as [cs escaped]. simpl in Hn. subst escaped.
    cbn beta iota zeta. rewrite ui_run_quiet, Hq by exact Hq.
    eexists. split; [rewrite <- app_assoc; reflexivity |]. split; [reflexivity | discriminate].
  - destruct (send_query_never_raises U post loads (app ms [session_message "user" (JStr prompt)]))
      as [v Hv].
    rewrite Hv, ui_run_quiet by exact Hq. exists v.
    split; [rewrite <- app_assoc; reflexivity |]. split; [discriminate | reflexivity].
Qed.

(** A chat turn never ends in an [Exception]: either a Streamlit call
    raises a script-control exception (a rerun or stop requested during the
    turn) and only the user message has been appended, or the user message
    and one assistant message have been.  When no Streamlit call raises, the
    turn completes, and the reply is the concatenation of the chunks of
    [stream_query] (an error text included) with streaming, the value
    [send_query] returns without. *)
Theorem chat_turn_appends_exchange (U : string) (post : string -> json -> res http_response)
    (loads : string -> string + json)
    (ps : string -> json -> res (http_response * (list string * option exn)))
    (st_control : nat -> ui_call -> option script_control)
    (use_streaming : bool) (ms : list json) (prompt : string) :
  ((exists s, chat_turn U post loads ps st_control use_streaming ms prompt =
                (app ms [session_message "user" (JStr prompt)], Some (TurnStopped s))) \/
   (exists reply, chat_turn U post loads ps st_control use_streaming ms prompt =
      (app ms [session_message "user" (JStr prompt); session_message "assistant" reply], None))) /\
  ((forall n c, st_control n c = None) ->
   exists reply,
     chat_turn U post loads ps st_control use_streaming ms prompt =
       (app ms [session_message "user" (JStr prompt); session_message "assistant" reply], None) /\
     (use_streaming = true ->
      reply = JStr (String.concat ""
                      (fst (stream_query U ps (app ms [session_message "user" (JStr prompt)]))))) /\
     (use_streaming = false ->
      send_query U post loads (app ms [session_message "user" (JStr prompt)]) = inr reply)).
Proof.
  split; [apply chat_turn_cases | apply chat_turn_quiet].
Qed.

(** The messages of one turn: the prompt, and the reply when the turn
    completed. *)
Definition turn_block (b : string * option json) : list json :=
  match b with
  | (p, None) => [session_message "user" (JStr p)]
  | (p, Some r) => [session_message "user" (JStr p); session_message "assistant" r]
  end.

Definition session_blocks (bs : list (string * option json)) : list json :=
  flat_map turn_block bs.

(** The number of completed turns. *)
Definition replies (bs : list (string * option json)) : nat :=
  length (filter (fun b => match snd b with Some _ => true | None => false end) bs).

Lemma map_res_is_user_blocks (bs : list (string * option json)) :
  map_res is_user_message (session_blocks bs) =
  inr (flat_map (fun b => match snd b with None => [true] | Some _ => [true; false] end) bs).
Proof.
  induction bs as [| [p [r |]] bs IH]; [reflexivity | |]; simpl; rewrite IH; reflexivity.
Qed.

Lemma length_session_blocks (bs : list (string * option json)) :
  length (session_blocks bs) = (length bs + replies bs)%nat.
Proof.
  unfold replies. induction bs as [| [p [r |]] bs IH]; [reflexivity | |]; simpl;
    rewrite IH; lia.
Qed.

Lemma count_user_flags (bs : list (string * option json)) :
  length (filter (fun b : bool => b)
            (flat_map (fun b => match snd b with None => [true] | Some _ => [true; false] end) bs))
  = length bs.
Proof.
  induction bs as [| [p [r |]] bs IH]; [reflexivity | |]; simpl; rewrite IH; reflexivity.
Qed.

Lemma replies_le (bs : list (string * option json)) : (replies bs <= length bs)%nat.
Proof.
  unfold replies. induction bs as [| [p [r |]] bs IH]; simpl; lia.
Qed.

Lemma chat_stats_blocks (bs : list (string * option json)) :
  chat_stats (session_blocks bs) = inr (length bs + replies bs, length bs, replies bs)%nat.
Proof.
  unfold chat_stats. rewrite map_res_is_user_blocks. simpl.
  rewrite length_session_blocks, count_user_flags.
  replace (length bs + replies bs - length bs)%nat with (replies bs) by lia. reflexivity.
Qed.

Lemma session_blocks_snoc (bs : list (string * option json)) (b : string * option json) :
  session_blocks (app bs [b]) = app (session_blocks bs) (turn_block b).
Proof. unfold session_blocks. rewrite flat_map_app. simpl. rewrite app_nil_r. reflexivity. Qed.

(** Every message list the session can reach is a sequence of turns, each
    a user message with a non-empty prompt, followed by its assistant
    message when the turn completed.  So the "Chat Stats" count one user
    message per turn and one assistant message per completed turn: the
    assistant count never exceeds the user count, and the total is their
    sum. *)
Theorem session_stats_consistent (U : string) (ms : list json) :
  session_reachable U ms ->
  exists bs, Forall (fun b => fst b <> "") bs /\ ms = session_blocks bs /\
    chat_stats ms = inr (length bs + replies bs, length bs, replies bs)%nat /\
    (replies bs <= length bs)%nat.
Proof.
  intros Hr.
  assert (Hp : exists bs, Forall (fun b => fst b <> "") bs /\ ms = session_blocks bs).
  { induction Hr as [| ms _ _
                    | ms post loads ps ctl b prompt ms' exit _ [bs [Hne ->]] Hprompt Ht].
    - exists []. split; [constructor | reflexivity].
    - exists []. split; [constructor | reflexivity].
    - destruct (chat_turn_cases U post loads ps ctl b (session_blocks bs) prompt)
        as [[s Heq] | [reply Heq]]; rewrite Ht in Heq; injection Heq as -> _.
      + exists (app bs [(prompt, None)]).
        split; [apply Forall_app; auto | symmetry; apply session_blocks_snoc].
      + exists (app bs [(prompt, Some reply)]).
        split; [apply Forall_app; auto | symmetry; apply session_blocks_snoc]. }
  destruct Hp as [bs [Hne ->]]. exists bs.
  split; [exact Hne |]. split; [reflexivity |].
  split; [apply chat_stats_blocks | apply replies_le].
Qed.

(* ------------------------------------------------------------------ *)
(** ** The further properties at concrete inputs *)

Definition throttled : exn := Exn ServiceError "Rate exceeded".

(** Services that fail with [throttled]: the retrieval unless
    [retrieve_ok], and the model always. *)
Definition failing_oracle (retrieve_ok : bool) : oracle :=
  fun c => match c with
           | Retrieve _ =>
               if retrieve_ok then inr (JObj [("retrievalResults", JArr kb_results)])
               else inl throttled
           | InvokeModel _ _ _ _ => inl throttled
           end.

Lemma rag_query_reports_failures_witness :
  outcome (failing_oracle true) (retrieve_from_kb (JStr "kb") "hi" 3)
    = inr ("Document 1: alpha" ++ nl ++ nl ++ "Document 3: gamma") /\
  outcome (failing_oracle true)
    (rag_query_endpoint (JStr "model") (JStr "kb") ([] ++ [Message "user" "hi"]))
    = inr (JObj [("error", JStr "Rate exceeded")]).
Proof.
  split; [reflexivity |].
  apply (proj2 (rag_query_reports_failures (JStr "model") (JStr "kb") (failing_oracle true)
                  [] (Message "user" "hi") throttled)
           ("Document 1: alpha" ++ nl ++ nl ++ "Document 3: gamma")); reflexivity.
Defined.

Lemma stream_failures_escape_witness :
  serve_stream (JStr "model") (JStr "kb") (failing_oracle false) ([] ++ [Message "user" "hi"])
    = ([ESvc (Retrieve (kb_request (JStr "kb") "hi" 3))], inl throttled).
Proof.
  apply (proj1 (stream_failures_escape (JStr "model") (JStr "kb") (failing_oracle false)
                  [] (Message "user" "hi") throttled)).
  reflexivity.
Defined.

Lemma unwrap_llm_response_malformed_witness :
  unwrap_llm_response (JObj [("content", JArr [JStr "hi"])])
    = inl (Exn AttributeError "'str' object has no attribute 'get'").
Proof.
  apply (proj1 (proj2 unwrap_llm_response_malformed) [("content", JArr [JStr "hi"])]
           (JStr "hi") [] eq_refl).
  intros gs H. discriminate H.
Defined.

Definition int_answer : json := JArr [JObj [("type", JStr "text"); ("text", JInt 5)]].

Lemma non_string_text_query_vs_stream_witness :
  outcome (example_oracle int_answer)
    (rag_query_endpoint (JStr "model") (JStr "kb") ([] ++ [Message "user" "hi"]))
    = inr (JObj [("response", JInt 5)]) /\
  serve_stream (JStr "model") (JStr "kb") (example_oracle int_answer) ([] ++ [Message "user" "hi"])
    = ([ESvc (Retrieve (kb_request (JStr "kb") "hi" 3));
        ESvc (model_call (JStr "model") "" [] "hi")],
       inl (Exn AttributeError "'int' object has no attribute 'split'")).
Proof.
  apply (non_string_text_query_vs_stream (JStr "model") (JStr "kb") (example_oracle int_answer)
           [] (Message "user" "hi") "" [("content", int_answer)]
           [("type", JStr "text"); ("text", JInt 5)] [] (JInt 5)); try reflexivity.
  intros s H. discriminate H.
Defined.

Lemma stream_one_sleep_per_chunk_witness :
  length (filter is_sleep (trace (example_oracle example_answer)
                             (stream_generator (JStr "model") (JStr "kb") "hi" []))) = 2%nat /\
  length (chunks (trace (example_oracle example_answer)
                    (stream_generator (JStr "model") (JStr "kb") "hi" []))) = 2%nat.
Proof.
  apply (stream_one_sleep_per_chunk (JStr "model") (JStr "kb") (example_oracle example_answer)
           "hi" [] "Hello  world").
  reflexivity.
Defined.

Definition hi_messages : list json := [session_message "user" (JStr "hi")].

Definition hi_payload : json := JObj [("messages", JArr hi_messages)].

Lemma send_query_dict_reply_witness :
  send_query "http://backend:8000" (fun u _ => inr (HttpResponse 200 "OK" u "{...}"))
    (fun _ => inr (JObj [("response", JStr "ignored"); ("error", JStr "boom")])) hi_messages
  = inr (JStr "Error: boom").
Proof.
  apply (send_query_dict_reply "http://backend:8000"
           (fun u _ => inr (HttpResponse 200 "OK" u "{...}"))
           (fun _ => inr (JObj [("response", JStr "ignored"); ("error", JStr "boom")]))
           hi_messages hi_payload (HttpResponse 200 "OK" "http://backend:8000/rag/query" "{...}")
           [("response", JStr "ignored"); ("error", JStr "boom")]); first [reflexivity | simpl; lia].
Defined.

Lemma send_query_connection_errors_witness :
  send_query "http://backend:8000"
    (fun u _ => inr (HttpResponse 503 "Service Unavailable" u "")) (fun _ => inl "") hi_messages
  = inr (JStr ("Connection error: 503 Server Error: Service Unavailable for url: " ++
               "http://backend:8000/rag/query")).
Proof.
  apply (proj2 (proj2 (send_query_connection_errors "http://backend:8000"
           (fun u _ => inr (HttpResponse 503 "Service Unavailable" u "")) (fun _ => inl "")
           hi_messages hi_payload eq_refl))
           (HttpResponse 503 "Service Unavailable" "http://backend:8000/rag/query" "")
           eq_refl); simpl; lia.
Defined.

Lemma stream_query_success_witness :
  stream_query "http://backend:8000"
    (fun u _ => inr (HttpResponse 200 "OK" u "", (["He"; ""; "llo"], None))) hi_messages
  = (["He"; "llo"], None) /\
  String.concat "" (fst (stream_query "http://backend:8000"
    (fun u _ => inr (HttpResponse 200 "OK" u "", (["He"; ""; "llo"], None))) hi_messages))
  = "Hello".
Proof.
  apply (stream_query_success "http://backend:8000"
           (fun u _ => inr (HttpResponse 200 "OK" u "", (["He"; ""; "llo"], None)))
           hi_messages hi_payload (HttpResponse 200 "OK" "http://backend:8000/rag/stream" "")
           ["He"; ""; "llo"]); first [reflexivity | simpl; lia].
Defined.

Definition broken : exn := Exn ConnectionError "Connection broken".

Lemma stream_query_connection_errors_witness :
  stream_query "http://backend:8000"
    (fun u _ => inr (HttpResponse 200 "OK" u "", (["Hel"; ""], Some broken))) hi_messages
  = (["Hel"; "Connection error: Connection broken"], None).
Proof.
  apply (proj2 (proj2 (proj2 (stream_query_connection_errors "http://backend:8000"
           (fun u _ => inr (HttpResponse 200 "OK" u "", (["Hel"; ""], Some broken)))
           hi_messages hi_payload eq_refl)))
           (HttpResponse 200 "OK" "http://backend:8000/rag/stream" "") ["Hel"; ""] broken);
    first [reflexivity | simpl; lia].
Defined.

(** Streamlit calls that never raise, and a rerun requested before the
    first Streamlit call of the turn. *)
Definition quiet_ui : nat -> ui_call -> option script_control := fun _ _ => None.

Definition rerun_at_once : nat -> ui_call -> option script_control :=
  fun n _ => if Nat.eqb n 0 then Some RerunException else None.

Lemma chat_turn_appends_exchange_witness :
  chat_turn "http://backend:8000" (fun _ _ => inl broken) (fun _ => inl "")
    (fun u _ => inr (HttpResponse 200 "OK" u "", (["He"; ""; "llo"], None))) quiet_ui true
    [] "hi"
  = ([session_message "user" (JStr "hi"); session_message "assistant" (JStr "Hello")], None).
Proof.
  destruct (proj2 (chat_turn_appends_exchange "http://backend:8000" (fun _ _ => inl broken)
           (fun _ => inl "")
           (fun u _ => inr (HttpResponse 200 "OK" u "", (["He"; ""; "llo"], None))) quiet_ui
           true [] "hi") (fun _ _ => eq_refl)) as [reply [H [Hs _]]].
  rewrite H, (Hs eq_refl). reflexivity.
Defined.

(** A turn interrupted by a new prompt, then a completed turn whose stream
    failed. *)
Definition interrupted_session : list json :=
  [session_message "user" (JStr "hi"); session_message "user" (JStr "hello");
   session_message "assistant" (JStr "Connection error: Connection broken")].

Lemma session_stats_consistent_witness :
  session_reachable "http://backend:8000" interrupted_session /\
  chat_stats interrupted_session = inr (3, 2, 1)%nat /\
  exists bs, Forall (fun b => fst b <> "") bs /\ interrupted_session = session_blocks bs /\
    chat_stats interrupted_session = inr (length bs + replies bs, length bs, replies bs)%nat /\
    (replies bs <= length bs)%nat.
Proof.
  assert (Hr : session_reachable "http://backend:8000" interrupted_session).
  { apply (session_turn "http://backend:8000" [session_message "user" (JStr "hi")]
             (fun _ _ => inl broken) (fun _ => inl "") (fun _ _ => inl broken) quiet_ui
             true "hello" _ None).
    - apply (session_turn "http://backend:8000" [] (fun _ _ => inl broken) (fun _ => inl "")
               (fun _ _ => inl broken) rerun_at_once false "hi" _
               (Some (TurnStopped RerunException))).
      + apply session_start.
      + discriminate.
      + reflexivity.
    - discriminate.
    - reflexivity. }
  split; [exact Hr |]. split; [reflexivity |].
  exact (session_stats_consistent "http://backend:8000" interrupted_session Hr).
Defined.
